(** * ztApi: the dual-backend ZeroTier client of ztnet

    A shallow embedding of [src/utils/ztApi.ts]: the flattening helpers, the
    axios transport wrappers and the network / member / aggregate
    operations.  JSON data is an inductive type of JavaScript values, the
    asynchronous operations are programs of a state-and-exception monad
    whose state records the HTTP requests issued and the console output. *)

From Stdlib Require Import String Ascii List ZArith NArith Bool Lia DecimalString.
Import ListNotations.
Local Open Scope list_scope.
Local Open Scope string_scope.

(** ** JavaScript values *)

(** The values that cross the module's boundary are JSON data.  An object
    is the sequence of its own enumerable properties, in the order in which
    JavaScript enumerates them ([Object.entries], spread, rest).  Numbers
    are the integers (HTTP statuses, revision counters, counts): the model
    covers the integers below 2^53 in absolute value, which a JavaScript
    number holds exactly and prints in plain decimal.  Fractions, [NaN],
    the infinities and negative zero are outside the model. *)
#[local] Set Warnings "-register-all".

Inductive value : Type :=
| VUndef
| VNull
| VBool (b : bool)
| VNum (z : Z)
| VStr (s : string)
| VArr (l : list value)
| VObj (o : list (string * value)).

Definition props := list (string * value).

Definition keys (o : props) : list string := map fst o.

Fixpoint lookup (k : string) (o : props) : option value :=
  match o with
  | [] => None
  | (k', v) :: t => if String.eqb k k' then Some v else lookup k t
  end.

(** A well-formed object has no two properties of the same name. *)
Definition obj_wf (o : props) : Prop := NoDup (keys o).

(** *** Property order

    A key that is a canonical array index (["0"], ["17"], ... below 2^32-1)
    is enumerated before every other key, in ascending numeric order; the
    other keys follow in creation order. *)
Definition index_key (i : N) : string := NilZero.string_of_uint (N.to_uint i).

Definition array_index (k : string) : option N :=
  match NilEmpty.uint_of_string k with
  | Some u =>
      let n := N.of_uint u in
      if String.eqb (index_key n) k && (n <? 4294967295)%N then Some n else None
  | None => None
  end.

Fixpoint obj_replace (k : string) (v : value) (o : props) : option props :=
  match o with
  | [] => None
  | (k', v') :: t =>
      if String.eqb k k' then Some ((k', v) :: t)
      else match obj_replace k v t with
           | Some t' => Some ((k', v') :: t')
           | None => None
           end
  end.

Fixpoint insert_index (n : N) (k : string) (v : value) (o : props) : props :=
  match o with
  | [] => [(k, v)]
  | (k', v') :: t =>
      match array_index k' with
      | Some n' => if (n' <? n)%N then (k', v') :: insert_index n k v t
                   else (k, v) :: o
      | None => (k, v) :: o
      end
  end.

Definition obj_create (k : string) (v : value) (o : props) : props :=
  match array_index k with
  | Some n => insert_index n k v o
  | None => (o ++ [(k, v)])%list
  end.

(** [o[k] = v] on a plain object: an existing property keeps its place and
    takes the new value, a new one is created. *)
Definition obj_set (k : string) (v : value) (o : props) : props :=
  match obj_replace k v o with
  | Some o' => o'
  | None => obj_create k v o
  end.

(** *** Own properties, spread and rest *)

Fixpoint index_props (i : N) (l : list value) : props :=
  match l with
  | [] => []
  | v :: t => (index_key i, v) :: index_props (N.succ i) t
  end.

Fixpoint chars (s : string) : list value :=
  match s with
  | EmptyString => []
  | String c t => VStr (String c EmptyString) :: chars t
  end.

(** The own enumerable string-keyed properties of a value: those of an
    object, the elements of an array, the characters of a string; the other
    primitives, [null] and [undefined] have none. *)
Definition own_props (v : value) : props :=
  match v with
  | VObj o => o
  | VArr l => index_props 0 l
  | VStr s => index_props 0 (chars s)
  | _ => []
  end.

(** [Object.assign]-style copy, the meaning of [...src] in an object
    literal whose properties so far are [tgt]. *)
Definition assign (tgt src : props) : props :=
  fold_left (fun o kv => obj_set (fst kv) (snd kv) o) src tgt.

Definition spread (tgt : props) (src : value) : props :=
  assign tgt (own_props src).

Definition excluded (ks : list string) (kv : string * value) : bool :=
  existsb (String.eqb (fst kv)) ks.

(** The rest element of an object pattern: the own properties that the
    pattern did not name, in their order. *)
Definition rest_props (ks : list string) (v : value) : props :=
  filter (fun kv => negb (excluded ks kv)) (own_props v).

(** [v.k] for the property names this module reads ([id], [config],
    [nodeId], [address], ...), none of which is inherited. *)
Definition get (v : value) (k : string) : value :=
  match lookup k (own_props v) with
  | Some x => x
  | None => VUndef
  end.

Definition nullish (v : value) : bool :=
  match v with
  | VUndef | VNull => true
  | _ => false
  end.

Definition truthy (v : value) : bool :=
  match v with
  | VUndef | VNull => false
  | VBool b => b
  | VNum z => negb (z =? 0)%Z
  | VStr s => negb (String.eqb s "")
  | VArr _ | VObj _ => true
  end.

Definition Z_to_string (z : Z) : string := NilZero.string_of_int (Z.to_int z).

(** String conversion, as a template literal performs it ([ToString]):
    a string is itself, [null], [undefined] and the booleans are their
    names, an integer is its decimal numeral (JavaScript switches to the
    exponent notation from 10^21 on: there the function is not the
    language's), an array is its elements joined by commas with [null] and
    [undefined] printed empty, and a plain object (JSON data has no
    [toString] of its own) is ["[object Object]"]. *)
Fixpoint to_str (v : value) : string :=
  match v with
  | VUndef => "undefined"
  | VNull => "null"
  | VBool true => "true"
  | VBool false => "false"
  | VNum z => Z_to_string z
  | VStr s => s
  | VArr l =>
      (fix join (l : list value) : string :=
         match l with
         | [] => ""
         | x :: t =>
             let sx := if nullish x then "" else to_str x in
             match t with
             | [] => sx
             | _ :: _ => sx ++ "," ++ join t
             end
         end) l
  | VObj _ => "[object Object]"
  end.

(** ** Errors *)

Record response := { status : Z; data : value }.

(** Modelled from the spec: the class [APIError] of
    [server/helpers/errorHandler], which the module constructs as
    [new APIError(message, error)], is not among the sources; following the
    spec (an error "wraps the underlying transport error with an
    operation-specific message", "carrying the original cause") an
    [APIError] is its message and the cause it was given, which is absent
    when the constructor received [undefined].  The other exceptions are the
    error of axios (with the response, when the server answered), the
    [TypeError] of the language and a failure of the settings store. *)
Inductive exn : Type :=
| AxiosError (message : string) (resp : option response)
| TypeError (message : string)
| APIError (message : string) (cause : option exn)
| DbError (message : string).

Definition result (A : Type) := (exn + A)%type.

Definition isAxiosError (e : exn) : bool :=
  match e with
  | AxiosError _ _ => true
  | _ => false
  end.

(** [error.response?.status] *)
Definition response_status (e : exn) : option Z :=
  match e with
  | AxiosError _ (Some r) => Some (status r)
  | _ => None
  end.

Definition status_is (s : option Z) (n : Z) : bool :=
  match s with
  | Some z => (z =? n)%Z
  | None => false
  end.

Fixpoint map_result {A B : Type} (f : A -> result B) (l : list A) : result (list B) :=
  match l with
  | [] => inr []
  | x :: t =>
      match f x with
      | inl e => inl e
      | inr y =>
          match map_result f t with
          | inl e => inl e
          | inr ys => inr (y :: ys)
          end
      end
  end.

(** ** Flattening *)

Definition flattenCentralMember (member : value) : result value :=
  if nullish member then inl (TypeError "Cannot destructure 'member' as it is nullish.")
  else
    let nodeId := get member "id" in
    let config := get member "config" in
    let otherProps := rest_props ["id"; "config"] member in
    let flattenedMember :=
      spread (spread (obj_set "nodeId" nodeId []) config) (VObj otherProps) in
    inr (VObj flattenedMember).

(** [members.map(f)] on a value that may not be an array. *)
Definition array_map (f : value -> result value) (who : string) (a : value) : result value :=
  match a with
  | VArr l =>
      match map_result f l with
      | inl e => inl e
      | inr l' => inr (VArr l')
      end
  | VUndef | VNull =>
      inl (TypeError ("Cannot read properties of " ++ to_str a ++ " (reading 'map')"))
  | _ => inl (TypeError (who ++ ".map is not a function"))
  end.

Definition flattenCentralMembers (members : value) : result value :=
  if negb (truthy members) then inr (VArr [])
  else array_map flattenCentralMember "members" members.

Definition flattenNetwork (network : value) : result value :=
  if nullish network then inl (TypeError "Cannot destructure 'network' as it is nullish.")
  else
    let nwid := get network "id" in
    let config := get network "config" in
    let otherProps := rest_props ["id"; "config"] network in
    let flattenedNetwork :=
      spread (spread (obj_set "nwid" nwid []) config) (VObj otherProps) in
    inr (VObj flattenedNetwork).

Definition flattenNetworks (networks : value) : result value :=
  array_map flattenNetwork "networks" networks.

(** ** The environment and the effects *)

Inductive method := GET | POST | DELETE.

Record request := {
  rq_method : method;
  rq_url : string;
  rq_headers : value;
  rq_body : option value
}.

(** What comes back for a request: an HTTP response, or no response at all
    (axios throws [e], for instance a network-level failure). *)
Inductive outcome :=
| Responded (r : response)
| Failed (e : exn).

(** Everything the module reads from outside: the module-level constants
    [LOCAL_ZT_ADDR] and [ZT_SECRET] as initialised at load time, the row
    that [prisma.globalOptions.findFirst] yields, the HTTP peer (which may
    answer according to the requests made so far), the value of
    [IPv4gen(null)], and, for a join of concurrent requests of which several
    reject, which of the rejections comes first in time. *)
Record Env := {
  LOCAL_ZT_ADDR : string;
  ZT_SECRET : value;
  globalOptions : result value;
  server : list request -> request -> outcome;
  IPv4gen_null : value;
  first_rejection : list exn -> nat
}.

Record world := {
  requests : list request;
  console : list exn
}.

Definition M (A : Type) : Type := world -> result A * world.

Definition ret {A : Type} (a : A) : M A := fun w => (inr a, w).

Definition throw {A : Type} (e : exn) : M A := fun w => (inl e, w).

Definition lift {A : Type} (r : result A) : M A := fun w => (r, w).

Definition bind {A B : Type} (m : M A) (k : A -> M B) : M B :=
  fun w =>
    match m w with
    | (inr a, w') => k a w'
    | (inl e, w') => (inl e, w')
    end.

Definition try_catch {A : Type} (body : M A) (handler : exn -> M A) : M A :=
  fun w =>
    match body w with
    | (inr a, w') => (inr a, w')
    | (inl e, w') => handler e w'
    end.

Declare Scope js_scope.
Delimit Scope js_scope with js.
Notation "x <- m ;; k" := (bind m (fun x => k))
  (at level 100, m at next level, right associativity) : js_scope.
Notation "m ;;; k" := (bind m (fun _ => k))
  (at level 100, right associativity) : js_scope.
Local Open Scope js_scope.

(** The world after one more request, resp. one more line on the console. *)
Definition sent (w : world) (rq : request) : world :=
  {| requests := (requests w ++ [rq])%list; console := console w |}.

Definition logged (w : world) (e : exn) : world :=
  {| requests := requests w; console := (console w ++ [e])%list |}.

Definition console_error (e : exn) : M unit :=
  fun w => (inr tt, logged w e).

(** *** axios *)

(** The default [validateStatus] of axios: a 2xx status resolves, any other
    rejects with an error that holds the response. *)
Definition validateStatus (s : Z) : bool := (200 <=? s)%Z && (s <? 300)%Z.

Definition settle (o : outcome) : result response :=
  match o with
  | Responded r =>
      if validateStatus (status r) then inr r
      else inl (AxiosError ("Request failed with status code " ++ Z_to_string (status r))
                           (Some r))
  | Failed e => inl e
  end.

Definition axios (E : Env) (rq : request) : M response :=
  fun w => (settle (server E (requests w) rq), sent w rq).

Definition axios_get (E : Env) (addr : string) (headers : value) : M response :=
  axios E {| rq_method := GET; rq_url := addr; rq_headers := headers; rq_body := None |}.

Definition axios_post (E : Env) (addr : string) (payload headers : value) : M response :=
  axios E {| rq_method := POST; rq_url := addr; rq_headers := headers;
             rq_body := Some payload |}.

Definition axios_delete (E : Env) (addr : string) (headers : value) : M response :=
  axios E {| rq_method := DELETE; rq_url := addr; rq_headers := headers;
             rq_body := None |}.

(** *** Credentials *)

Definition CENTRAL_ZT_ADDR : string := "https://api.zerotier.com/api/v1".

Definition getApiCredentials (E : Env) : M value := lift (globalOptions E).

Record GetOptionsResponse := {
  ztCentralApiUrl : value;
  headers : value
}.

Definition getOptions (E : Env) (isCentral : bool) : M GetOptionsResponse :=
  if isCentral then
    creds <- getApiCredentials E ;;
    if nullish creds
    then throw (TypeError "Cannot destructure the credentials as they are nullish.")
    else
      let ztCentralApiKey := get creds "ztCentralApiKey" in
      let ztCentralApiUrl := get creds "ztCentralApiUrl" in
      ret {| ztCentralApiUrl :=
               if truthy ztCentralApiUrl then ztCentralApiUrl else VStr CENTRAL_ZT_ADDR;
             headers :=
               VObj [("Authorization", VStr ("token " ++ to_str ztCentralApiKey));
                     ("Content-Type", VStr "application/json")] |}
  else
    ret {| ztCentralApiUrl := VNull;
           headers := VObj [("X-ZT1-Auth", ZT_SECRET E);
                            ("Content-Type", VStr "application/json")] |}.

(** *** Axios helper functions *)

Definition getData (E : Env) (addr : string) (headers : value) : M value :=
  try_catch
    (r <- axios_get E addr headers ;;
     ret (data r))
    (fun error =>
       (if isAxiosError error then
          let statusCode := response_status error in
          if status_is statusCode 401 then throw (APIError "Invalid API Key" (Some error))
          else if status_is statusCode 404
               then throw (APIError "Endpoint Not Found" (Some error))
               else ret tt
        else ret tt) ;;;
       let message := "An error occurred fetching data from " ++ addr in
       throw (APIError message (Some error))).

Definition postData (E : Env) (addr : string) (headers payload : value) : M value :=
  try_catch
    (r <- axios_post E addr payload headers ;;
     ret (data r))
    (fun error =>
       let message := "An error occurred while posting data to " ++ addr in
       throw (APIError message (Some error))).

Definition prefix (isCentral : bool) : string :=
  if isCentral then "[CENTRAL] " else "".

(** ** Controller API *)

Definition ping_api (E : Env) : M value :=
  o <- getOptions E true ;;
  let addr := to_str (ztCentralApiUrl o) ++ "/network" in
  getData E addr (headers o).

Definition get_controller_version (E : Env) : M value :=
  let addr := LOCAL_ZT_ADDR E ++ "/controller" in
  o <- getOptions E false ;;
  try_catch
    (getData E addr (headers o))
    (fun error =>
       let message := "An error occurred while getting get_controller_version" in
       throw (APIError message (Some error))).

Definition get_controller_networks (E : Env) (isCentral : bool) : M value :=
  o <- getOptions E isCentral ;;
  let addr := if isCentral
              then to_str (ztCentralApiUrl o) ++ "/network"
              else LOCAL_ZT_ADDR E ++ "/controller/network" in
  try_catch
    (if isCentral then
       data <- getData E addr (headers o) ;;
       lift (flattenNetworks data)
     else getData E addr (headers o))
    (fun error =>
       let message :=
         prefix isCentral ++ "An error occurred while getting get_controller_networks" in
       throw (APIError message (if isAxiosError error then Some error else None))).

Definition get_controller_status (E : Env) (isCentral : bool) : M value :=
  o <- getOptions E isCentral ;;
  let addr := if isCentral
              then to_str (ztCentralApiUrl o) ++ "/status"
              else LOCAL_ZT_ADDR E ++ "/status" in
  try_catch
    (if isCentral then getData E addr (headers o) else getData E addr (headers o))
    (fun error =>
       let message :=
         prefix isCentral ++ "An error occurred while getting get_controller_status" in
       throw (APIError message (Some error))).

(** The payload of [network_create]: [{ name, private: true, ...ipAssignment }]. *)
Definition create_payload (name : string) (ipAssignment : value) : props :=
  spread (obj_set "private" (VBool true) (obj_set "name" (VStr name) [])) ipAssignment.

Definition network_create (E : Env) (name : string) (ipAssignment : value)
    (isCentral : bool) : M value :=
  o <- getOptions E isCentral ;;
  let payload := create_payload name ipAssignment in
  try_catch
    (if isCentral then
       data <- postData E (to_str (ztCentralApiUrl o) ++ "/network") (headers o)
                 (VObj (obj_set "description" (VStr "created with ztnet")
                          (obj_set "config" (VObj (spread [] (VObj payload))) []))) ;;
       lift (flattenNetwork data)
     else
       controllerStatus <- get_controller_status E isCentral ;;
       if nullish controllerStatus
       then throw (TypeError "Cannot read properties of a nullish status (reading 'address')")
       else
         postData E
           (LOCAL_ZT_ADDR E ++ "/controller/network/"
              ++ to_str (get controllerStatus "address") ++ "______")
           (headers o) (VObj payload))
    (fun error =>
       let message := prefix isCentral ++ "An error occurred while getting network_create" in
       throw (APIError message (Some error))).

Definition network_delete (E : Env) (nwid : string) (isCentral : bool) : M value :=
  o <- getOptions E isCentral ;;
  let addr := if isCentral
              then to_str (ztCentralApiUrl o) ++ "/network/" ++ nwid
              else LOCAL_ZT_ADDR E ++ "/controller/network/" ++ nwid in
  try_catch
    (response <- axios_delete E addr (headers o) ;;
     ret (VObj [("status", VNum (status response)); ("data", VUndef)]))
    (fun error =>
       let message := prefix isCentral ++ "An error occurred while getting network_delete" in
       throw (APIError message (Some error))).

Definition network_members (E : Env) (nwid : string) (isCentral : bool) : M value :=
  o <- getOptions E isCentral ;;
  try_catch
    (let addr := if isCentral
                 then to_str (ztCentralApiUrl o) ++ "/network/" ++ nwid ++ "/member"
                 else LOCAL_ZT_ADDR E ++ "/controller/network/" ++ nwid ++ "/member" in
     getData E addr (headers o))
    (fun error =>
       let message := prefix isCentral ++ "An error occurred while getting network_members" in
       throw (APIError message (Some error))).

(** [[...v]]: the elements that iterating [v] yields. *)
Definition iterate (v : value) : result (list value) :=
  match v with
  | VArr l => inr l
  | VStr s => inr (chars s)
  | _ => inl (TypeError (to_str v ++ " is not iterable"))
  end.

(** [Object.entries(v)] *)
Definition Object_entries (v : value) : result props :=
  if nullish v then inl (TypeError "Cannot convert undefined or null to object")
  else inr (own_props v).

(** The loop [for (const [memberId] of entries) { ... membersArr.push(...) }]
    of [local_network_detail]. *)
Fixpoint for_each_member (E : Env) (nwid : string) (headers : value)
    (entries : props) (membersArr : list value) : M (list value) :=
  match entries with
  | [] => ret membersArr
  | (memberId, _) :: rest =>
      memberDetails <-
        getData E (LOCAL_ZT_ADDR E ++ "/controller/network/" ++ nwid ++ "/member/" ++ memberId)
          headers ;;
      for_each_member E nwid headers rest (membersArr ++ [memberDetails])%list
  end.

Definition local_network_detail (E : Env) (nwid : string) (isCentral : bool) : M value :=
  o <- getOptions E isCentral ;;
  try_catch
    (members <- network_members E nwid false ;;
     network <- getData E (LOCAL_ZT_ADDR E ++ "/controller/network/" ++ nwid) (headers o) ;;
     entries <- lift (Object_entries members) ;;
     membersArr <- for_each_member E nwid (headers o) entries [] ;;
     ret (VObj [("network", VObj (spread [] network)); ("members", VArr membersArr)]))
    (fun error =>
       let message := "An error occurred while getting data from network_details function" in
       throw (APIError message (Some error))).

(** *** Concurrent requests

    [xs.map(async x => ...)] starts every request, in the order of [xs];
    each promise settles on its own.  [Promise.all] fulfils with all the
    values when no promise rejects, and otherwise rejects with the reason of
    the promise that rejected first. *)
Definition settled {A : Type} (p : M A) : M (result A) :=
  fun w => let (r, w') := p w in (inr r, w').

Fixpoint start_all {A : Type} (ps : list (M A)) : M (list (result A)) :=
  match ps with
  | [] => ret []
  | p :: rest =>
      r <- settled p ;;
      rs <- start_all rest ;;
      ret (r :: rs)
  end.

Fixpoint rejections {A : Type} (rs : list (result A)) : list exn :=
  match rs with
  | [] => []
  | inl e :: t => e :: rejections t
  | inr _ :: t => rejections t
  end.

Fixpoint fulfilled {A : Type} (rs : list (result A)) : list A :=
  match rs with
  | [] => []
  | inl _ :: t => fulfilled t
  | inr a :: t => a :: fulfilled t
  end.

Definition Promise_all {A : Type} (E : Env) (rs : list (result A)) : result (list A) :=
  match rejections rs with
  | [] => inr (fulfilled rs)
  | e :: es => inl (nth (first_rejection E (e :: es)) (e :: es) e)
  end.

(** [members?.map(async (member) => await getData(`${addr}/member/${member?.nodeId}`, headers))] *)
Definition member_requests (E : Env) (addr : string) (headers : value)
    (members : value) : result (list (M value)) :=
  match members with
  | VUndef | VNull => inl (TypeError "undefined is not iterable")
  | VArr l =>
      inr (map (fun member =>
                  getData E (addr ++ "/member/"
                               ++ to_str (if nullish member then VUndef
                                          else get member "nodeId"))
                    headers) l)
  | _ => inl (TypeError "members?.map is not a function")
  end.

(** The [network] object that [central_network_detail] returns:
    [{ cidr: cidrOptions, nwid: networkId, ...restData, ...networkConfig }]. *)
Definition detail_network (cidrOptions networkId : value) (restData : props)
    (networkConfig : value) : props :=
  spread
    (spread (obj_set "nwid" networkId (obj_set "cidr" cidrOptions [])) (VObj restData))
    networkConfig.

Definition central_network_detail (E : Env) (nwid : string) (isCentral : bool) : M value :=
  o <- getOptions E isCentral ;;
  try_catch
    (let addr := if isCentral
                 then to_str (ztCentralApiUrl o) ++ "/network/" ++ nwid
                 else LOCAL_ZT_ADDR E ++ "/controller/network/" ++ nwid in
     members <- network_members E nwid isCentral ;;
     network <- getData E addr (headers o) ;;
     promises <- lift (member_requests E addr (headers o) members) ;;
     settled <- start_all promises ;;
     membersArr <- lift (Promise_all E settled) ;;
     let ipAssignmentPools := IPv4gen_null E in
     if nullish ipAssignmentPools
     then throw (TypeError "Cannot destructure property 'cidrOptions' of a nullish value")
     else
       let cidrOptions := get ipAssignmentPools "cidrOptions" in
       if nullish network
       then throw (TypeError "Cannot destructure 'network' as it is nullish.")
       else
         let networkId := get network "id" in
         let networkConfig := get network "config" in
         let restData := rest_props ["id"; "config"] network in
         flat <- lift (flattenCentralMembers (VArr membersArr)) ;;
         flatMembers <- lift (iterate flat) ;;
         ret (VObj [("network",
                     VObj (detail_network cidrOptions networkId restData networkConfig));
                    ("members", VArr flatMembers)]))
    (fun error =>
       let source := if isCentral then "[ZT CENTRAL]" else "" in
       let message :=
         source ++ " An error occurred while getting data from network_details function" in
       throw (APIError message (Some error))).

Definition network_update (E : Env) (nwid : string) (payload : value) (central : bool)
    : M value :=
  o <- getOptions E central ;;
  let addr := if central
              then to_str (ztCentralApiUrl o) ++ "/network/" ++ nwid
              else LOCAL_ZT_ADDR E ++ "/controller/network/" ++ nwid in
  try_catch
    (postData E addr (headers o) payload)
    (fun error =>
       let message := prefix central ++ "An error occurred while getting network_update" in
       throw (APIError message (Some error))).

(** The address of a member, which [member_delete], [member_update] and
    [member_details] each compute by the same conditional. *)
Definition member_addr (E : Env) (o : GetOptionsResponse) (nwid memberId : string)
    (central : bool) : string :=
  if central
  then to_str (ztCentralApiUrl o) ++ "/network/" ++ nwid ++ "/member/" ++ memberId
  else LOCAL_ZT_ADDR E ++ "/controller/network/" ++ nwid ++ "/member/" ++ memberId.

Definition member_delete (E : Env) (nwid memberId : string) (central : bool) : M value :=
  o <- getOptions E central ;;
  let addr := member_addr E o nwid memberId central in
  try_catch
    (response <- axios_delete E addr (headers o) ;;
     ret (VNum (status response)))
    (fun error =>
       let message := prefix central ++ "An error occurred while getting member_delete" in
       throw (APIError message (Some error))).

Definition member_update (E : Env) (nwid memberId : string) (payload : value)
    (central : bool) : M value :=
  o <- getOptions E central ;;
  let addr := member_addr E o nwid memberId central in
  try_catch
    (postData E addr (headers o) payload)
    (fun error =>
       let message := prefix central ++ "An error occurred while getting member_update" in
       throw (APIError message (Some error))).

Definition member_details (E : Env) (nwid memberId : string) (central : bool) : M value :=
  o <- getOptions E central ;;
  try_catch
    (let addr := member_addr E o nwid memberId central in
     getData E addr (headers o))
    (fun error =>
       let message := "An error occurred while getting member_detail" in
       throw (APIError message (Some error))).

Definition peers (E : Env) : M value :=
  let addr := LOCAL_ZT_ADDR E ++ "/peer" in
  o <- getOptions E false ;;
  try_catch
    (response <- axios_get E addr (headers o) ;;
     ret (data response))
    (fun error =>
       let message := "An error occurred while getting peers" in
       throw (APIError message (Some error))).

Definition peer (E : Env) (userZtAddress : string) : M value :=
  let addr := LOCAL_ZT_ADDR E ++ "/peer/" ++ userZtAddress in
  try_catch
    (o <- getOptions E false ;;
     response <- getData E addr (headers o) ;;
     if negb (truthy response) then ret (VObj []) else ret response)
    (fun error =>
       console_error error ;;;
       ret (VArr [])).

(** ** Vocabulary of the statements *)

(** The object literal [{ idKey: id, ...config, ...otherProps }] that both
    single-record flatteners build. *)
Definition flat_literal (idKey : string) (id config : value) (otherProps : props) : props :=
  spread (spread (obj_set idKey id []) config) (VObj otherProps).

(** What C1 says of a flattener [flatten] with identifier field [idKey] at
    the record [record]. *)
Definition flattens_cleanly (flatten : value -> result value) (idKey : string)
    (record : value) : Prop :=
  exists flat,
    flatten record = inr (VObj flat) /\
    lookup idKey flat = Some (get record "id") /\
    (forall k, In k (keys flat) <->
               k = idKey \/ In k (keys (own_props (get record "config")))
               \/ In k (keys (rest_props ["id"; "config"] record))) /\
    ~ In "id" (keys flat) /\ ~ In "config" (keys flat).


Definition get_request (addr : string) (headers : value) : request :=
  {| rq_method := GET; rq_url := addr; rq_headers := headers; rq_body := None |}.

Definition post_request (addr : string) (headers payload : value) : request :=
  {| rq_method := POST; rq_url := addr; rq_headers := headers; rq_body := Some payload |}.

Definition delete_request (addr : string) (headers : value) : request :=
  {| rq_method := DELETE; rq_url := addr; rq_headers := headers; rq_body := None |}.

(** The error axios raises for a response outside 2xx. *)
Definition status_error (r : response) : exn :=
  AxiosError ("Request failed with status code " ++ Z_to_string (status r)) (Some r).

(** The error taxonomy of the spec, in the module's terms: every error it
    throws is an [APIError]; the two classified ones are told by their
    message, the others carry the message of the helper or operation. *)
Definition InvalidCredentials (cause : exn) : exn := APIError "Invalid API Key" (Some cause).

Definition NotFound (cause : exn) : exn := APIError "Endpoint Not Found" (Some cause).

Definition TransportFailure (message : string) (cause : exn) : exn :=
  APIError message (Some cause).

(** The error [getData] throws when axios raised [error]. *)
Definition getData_error (addr : string) (error : exn) : exn :=
  if status_is (response_status error) 401 then InvalidCredentials error
  else if status_is (response_status error) 404 then NotFound error
  else TransportFailure ("An error occurred fetching data from " ++ addr) error.

Definition postData_error (addr : string) (error : exn) : exn :=
  TransportFailure ("An error occurred while posting data to " ++ addr) error.

Definition is_APIError (e : exn) : Prop := exists message cause, e = APIError message cause.

(** The world after a sequence of requests. *)
Definition sent_all (w : world) (rqs : list request) : world := fold_left sent rqs w.

(** The answers that a sequence of requests receives when they are issued
    one after the other on top of [history]. *)
Fixpoint answers (E : Env) (history : list request) (rqs : list request)
    : list (result response) :=
  match rqs with
  | [] => []
  | rq :: rest => settle (server E history rq) :: answers E (history ++ [rq])%list rest
  end.

Definition fulfils {A : Type} (a : result A) : Prop := exists x, a = inr x.

Definition body_of (a : result response) : value :=
  match a with
  | inr r => data r
  | inl _ => VUndef
  end.

(** Addresses and requests of the two aggregations. *)
Definition network_addr (E : Env) (o : GetOptionsResponse) (nwid : string)
    (isCentral : bool) : string :=
  if isCentral then to_str (ztCentralApiUrl o) ++ "/network/" ++ nwid
  else LOCAL_ZT_ADDR E ++ "/controller/network/" ++ nwid.

Definition local_headers (E : Env) : value :=
  VObj [("X-ZT1-Auth", ZT_SECRET E); ("Content-Type", VStr "application/json")].

Definition local_member_url (E : Env) (nwid memberId : string) : string :=
  LOCAL_ZT_ADDR E ++ "/controller/network/" ++ nwid ++ "/member/" ++ memberId.

Definition local_detail_requests (E : Env) (nwid : string) (h : value) (entries : props)
    : list request :=
  map (fun kv => get_request (local_member_url E nwid (fst kv)) h) entries.

Definition central_member_url (addr : string) (member : value) : string :=
  addr ++ "/member/" ++ to_str (if nullish member then VUndef else get member "nodeId").

Definition central_detail_requests (addr : string) (h : value) (members : list value)
    : list request :=
  map (fun member => get_request (central_member_url addr member) h) members.

(** How the member-detail promises of the Central aggregation settle, given
    the answers to their requests. *)
Fixpoint settle_details (addr : string) (members : list value)
    (ans : list (result response)) : list (result value) :=
  match members, ans with
  | member :: members', a :: ans' =>
      match a with
      | inr r => inr (data r)
      | inl e => inl (getData_error (central_member_url addr member) e)
      end :: settle_details addr members' ans'
  | _, _ => []
  end.

Definition local_detail_message : string :=
  "An error occurred while getting data from network_details function".

Definition central_detail_message (isCentral : bool) : string :=
  (if isCentral then "[ZT CENTRAL]" else "")
    ++ " An error occurred while getting data from network_details function".

(** The order of requests that C5 describes for the Local aggregation:
    the member-id list, the details, then the network record. *)
Definition claimed_local_order (E : Env) (nwid : string) (memberIds : list string)
    : list string :=
  let list_url := LOCAL_ZT_ADDR E ++ "/controller/network/" ++ nwid ++ "/member" in
  let network_url := LOCAL_ZT_ADDR E ++ "/controller/network/" ++ nwid in
  (list_url :: map (local_member_url E nwid) memberIds ++ [network_url])%list.

(** What [central_network_detail] returns or throws, inside its [try], once
    the member details [membersArr] are joined. *)
Definition assemble_detail (E : Env) (network : value) (membersArr : list value)
    : result value :=
  if nullish (IPv4gen_null E)
  then inl (TypeError "Cannot destructure property 'cidrOptions' of a nullish value")
  else
    if nullish network
    then inl (TypeError "Cannot destructure 'network' as it is nullish.")
    else
      match flattenCentralMembers (VArr membersArr) with
      | inl e => inl e
      | inr flat =>
          match iterate flat with
          | inl e => inl e
          | inr flatMembers =>
              inr (VObj [("network",
                          VObj (detail_network (get (IPv4gen_null E) "cidrOptions")
                                  (get network "id")
                                  (rest_props ["id"; "config"] network)
                                  (get network "config")));
                         ("members", VArr flatMembers)])
          end
      end.

(** What C2 says of a flattener at a record: a key that [config] shares
    with the remaining top-level fields takes the value of [config]. *)
Definition config_wins (flatten : value -> result value) (record : value) : Prop :=
  forall k v,
    lookup k (own_props (get record "config")) = Some v ->
    In k (keys (rest_props ["id"; "config"] record)) ->
    exists flat, flatten record = inr (VObj flat) /\ lookup k flat = Some v.




(** The exported operations other than [peer], with their arguments. *)
Inductive operation : Type :=
| Ping_api
| Get_controller_version
| Get_controller_networks (isCentral : bool)
| Get_controller_status (isCentral : bool)
| Network_create (name : string) (ipAssignment : value) (isCentral : bool)
| Network_delete (nwid : string) (isCentral : bool)
| Network_members (nwid : string) (isCentral : bool)
| Local_network_detail (nwid : string) (isCentral : bool)
| Central_network_detail (nwid : string) (isCentral : bool)
| Network_update (nwid : string) (updateParams : value) (central : bool)
| Member_delete (nwid memberId : string) (central : bool)
| Member_update (nwid memberId : string) (updateParams : value) (central : bool)
| Member_details (nwid memberId : string) (central : bool)
| Peers.

Definition perform (E : Env) (op : operation) : M value :=
  match op with
  | Ping_api => ping_api E
  | Get_controller_version => get_controller_version E
  | Get_controller_networks isCentral => get_controller_networks E isCentral
  | Get_controller_status isCentral => get_controller_status E isCentral
  | Network_create name ipAssignment isCentral => network_create E name ipAssignment isCentral
  | Network_delete nwid isCentral => network_delete E nwid isCentral
  | Network_members nwid isCentral => network_members E nwid isCentral
  | Local_network_detail nwid isCentral => local_network_detail E nwid isCentral
  | Central_network_detail nwid isCentral => central_network_detail E nwid isCentral
  | Network_update nwid updateParams central => network_update E nwid updateParams central
  | Member_delete nwid memberId central => member_delete E nwid memberId central
  | Member_update nwid memberId updateParams central =>
      member_update E nwid memberId updateParams central
  | Member_details nwid memberId central => member_details E nwid memberId central
  | Peers => peers E
  end.

(** The backend whose credentials an operation resolves first. *)
Definition backend (op : operation) : bool :=
  match op with
  | Ping_api => true
  | Get_controller_version | Peers => false
  | Get_controller_networks c | Get_controller_status c | Network_create _ _ c
  | Network_delete _ c | Network_members _ c | Local_network_detail _ c
  | Central_network_detail _ c | Network_update _ _ c | Member_delete _ _ c
  | Member_update _ _ _ c | Member_details _ _ c => c
  end.







(** ** Sample data *)

(** A member as ZeroTier Central sends it: the record's [id] joins the
    network and node identifiers, and both the record and its [config]
    carry fields of their own named like the flattened ones. *)
Definition central_member : value :=
  VObj [("id", VStr "8056c2e21c000001-abcdef1234");
        ("config", VObj [("authorized", VBool true); ("id", VStr "abcdef1234")]);
        ("name", VStr "laptop");
        ("nodeId", VStr "abcdef1234")].

(** A network record whose [config] and top level both carry [name]. *)
Definition colliding_network : value :=
  VObj [("id", VStr "8056c2e21c000001");
        ("config", VObj [("name", VStr "from-config"); ("private", VBool true)]);
        ("name", VStr "from-top-level")].

(** A network record without any collision. *)
Definition plain_network : value :=
  VObj [("id", VStr "8056c2e21c000001");
        ("config", VObj [("name", VStr "lab"); ("private", VBool true)]);
        ("description", VStr "created with ztnet")].

Definition no_requests : world := {| requests := []; console := [] |}.

Definition local_addr : string := "http://127.0.0.1:9993".

Definition central_settings : value :=
  VObj [("id", VNum 1); ("ztCentralApiKey", VStr "k3y"); ("ztCentralApiUrl", VNull)].

Definition candidates : value := VObj [("cidrOptions", VArr [VStr "10.121.15.0/24"])].

(** An environment whose HTTP peer answers every request by [answer]. *)
Definition constant_env (answer : outcome) : Env :=
  {| LOCAL_ZT_ADDR := local_addr;
     ZT_SECRET := VStr "s3cret";
     globalOptions := inr central_settings;
     server := fun _ _ => answer;
     IPv4gen_null := candidates;
     first_rejection := fun _ => 0%nat |}.

Definition unauthorized : response := {| status := 401; data := VNull |}.

Definition not_found : response := {| status := 404; data := VNull |}.

Definition unavailable : response := {| status := 503; data := VNull |}.

Definition connection_refused : exn := AxiosError "connect ECONNREFUSED" None.

Definition ok (body : value) : outcome := Responded {| status := 200; data := body |}.

(** A local controller with one network, [n1], of three members.  The
    detail of the third member is served or not, as [third] says. *)
Definition local_controller (third : outcome) (history : list request) (rq : request)
    : outcome :=
  match rq_url rq with
  | "http://127.0.0.1:9993/controller/network/n1/member" =>
      ok (VObj [("aaaaaaaaaa", VNum 1); ("bbbbbbbbbb", VNum 1); ("cccccccccc", VNum 1)])
  | "http://127.0.0.1:9993/controller/network/n1" =>
      ok (VObj [("id", VStr "n1"); ("name", VStr "lab")])
  | "http://127.0.0.1:9993/controller/network/n1/member/aaaaaaaaaa" =>
      ok (VObj [("id", VStr "aaaaaaaaaa"); ("authorized", VBool true)])
  | "http://127.0.0.1:9993/controller/network/n1/member/bbbbbbbbbb" =>
      ok (VObj [("id", VStr "bbbbbbbbbb"); ("authorized", VBool false)])
  | "http://127.0.0.1:9993/controller/network/n1/member/cccccccccc" => third
  | _ => Responded not_found
  end.

Definition local_env (third : outcome) : Env :=
  {| LOCAL_ZT_ADDR := local_addr;
     ZT_SECRET := VStr "s3cret";
     globalOptions := inr central_settings;
     server := local_controller third;
     IPv4gen_null := candidates;
     first_rejection := fun _ => 0%nat |}.

Definition three_members : props :=
  [("aaaaaaaaaa", VNum 1); ("bbbbbbbbbb", VNum 1); ("cccccccccc", VNum 1)].

(** Members as Central lists and details them. *)
Definition listed_member (nodeId : string) : value :=
  VObj [("id", VStr ("n1-" ++ nodeId)); ("nodeId", VStr nodeId)].

Definition detailed_member (nodeId : string) : value :=
  VObj [("id", VStr ("n1-" ++ nodeId));
        ("config", VObj [("authorized", VBool true); ("id", VStr nodeId)]);
        ("nodeId", VStr nodeId)].

(** The Central service with one network, [n1], of two members.  The
    network record is [network]; the detail of the second member is served
    or not, as [second] says; a POST to the networks collection creates the
    network with the posted configuration and description. *)
Definition central_service (network : value) (second : outcome)
    (history : list request) (rq : request) : outcome :=
  match rq_method rq, rq_url rq, rq_body rq with
  | GET, "https://api.zerotier.com/api/v1/network/n1/member", _ =>
      ok (VArr [listed_member "aaaaaaaaaa"; listed_member "bbbbbbbbbb"])
  | GET, "https://api.zerotier.com/api/v1/network/n1", _ => ok network
  | GET, "https://api.zerotier.com/api/v1/network/n1/member/aaaaaaaaaa", _ =>
      ok (detailed_member "aaaaaaaaaa")
  | GET, "https://api.zerotier.com/api/v1/network/n1/member/bbbbbbbbbb", _ => second
  | POST, "https://api.zerotier.com/api/v1/network", Some body =>
      ok (VObj [("id", VStr "8056c2e21c000001");
                ("config", get body "config");
                ("description", get body "description");
                ("ownerId", VStr "owner")])
  | _, _, _ => Responded not_found
  end.

Definition central_env (network : value) (second : outcome) : Env :=
  {| LOCAL_ZT_ADDR := local_addr;
     ZT_SECRET := VStr "s3cret";
     globalOptions := inr central_settings;
     server := central_service network second;
     IPv4gen_null := candidates;
     first_rejection := fun _ => 0%nat |}.

(** A network record whose [config] carries a [cidr] of its own. *)
Definition network_with_cidr : value :=
  VObj [("id", VStr "n1");
        ("config", VObj [("name", VStr "lab"); ("cidr", VStr "192.168.0.0/16")]);
        ("description", VStr "d")].

Definition central_headers : value :=
  VObj [("Authorization", VStr "token k3y"); ("Content-Type", VStr "application/json")].

Definition central_options : GetOptionsResponse :=
  {| ztCentralApiUrl := VStr CENTRAL_ZT_ADDR; headers := central_headers |}.

(** ** Vocabulary of the facade operations *)

(** The single request of each facade operation that is one GET or one
    POST, and the message of the [APIError] it throws. *)
Definition status_addr (E : Env) (o : GetOptionsResponse) (isCentral : bool) : string :=
  if isCentral then to_str (ztCentralApiUrl o) ++ "/status"
  else LOCAL_ZT_ADDR E ++ "/status".

Definition members_addr (E : Env) (o : GetOptionsResponse) (nwid : string)
    (isCentral : bool) : string :=
  if isCentral then to_str (ztCentralApiUrl o) ++ "/network/" ++ nwid ++ "/member"
  else LOCAL_ZT_ADDR E ++ "/controller/network/" ++ nwid ++ "/member".

Definition networks_addr (E : Env) (o : GetOptionsResponse) (isCentral : bool) : string :=
  if isCentral then to_str (ztCentralApiUrl o) ++ "/network"
  else LOCAL_ZT_ADDR E ++ "/controller/network".

(** What a facade that calls [getData], resp. [postData], inside
    [try { ... } catch (error) { throw new APIError(message, error) }]
    returns for the answer [a] to its request. *)
Definition get_facade_result (message addr : string) (a : result response) : result value :=
  match a with
  | inr r => inr (data r)
  | inl error => inl (APIError message (Some (getData_error addr error)))
  end.

Definition post_facade_result (message addr : string) (a : result response) : result value :=
  match a with
  | inr r => inr (data r)
  | inl error => inl (APIError message (Some (postData_error addr error)))
  end.

Definition is_TypeError (e : exn) : Prop := exists message, e = TypeError message.

(** Two objects with the same properties, in whatever order. *)
Definition same_properties (o1 o2 : props) : Prop := forall k, lookup k o1 = lookup k o2.

(** ** The admin router *)

(** [v.length] for a value that may be an array, a string (of characters
    below U+0080), an object with a property of that name, or none of
    these. *)
Definition get_length (v : value) : result value :=
  match v with
  | VUndef | VNull =>
      inl (TypeError ("Cannot read properties of " ++ to_str v ++ " (reading 'length')"))
  | VArr l => inr (VNum (Z.of_nat (length l)))
  | VStr s => inr (VNum (Z.of_nat (String.length s)))
  | _ => inr (get v "length")
  end.

(** [Object.keys(v)] *)
Definition Object_keys (v : value) : result (list string) :=
  if nullish v then inl (TypeError "Cannot convert undefined or null to object")
  else inr (keys (own_props v)).

(** The loop of [getControllerStats]:
    [for (const network of networks) { ...; totalMembers += Object.keys(members).length }]. *)
Fixpoint count_members (E : Env) (networks : list value) (totalMembers : Z) : M Z :=
  match networks with
  | [] => ret totalMembers
  | network :: rest =>
      members <- network_members E (to_str network) false ;;
      memberKeys <- lift (Object_keys members) ;;
      count_members E rest (totalMembers + Z.of_nat (length memberKeys))%Z
  end.

Definition getControllerStats (E : Env) : M value :=
  networks <- get_controller_networks E false ;;
  networkCount <- lift (get_length networks) ;;
  elements <- lift (iterate networks) ;;
  totalMembers <- count_members E elements 0%Z ;;
  controllerStatus <- get_controller_status E false ;;
  ret (VObj [("networkCount", networkCount);
             ("totalMembers", VNum totalMembers);
             ("controllerStatus", controllerStatus)]).

(** The default mail templates, [inviteUserTemplate()] and
    [forgotPasswordTemplate()] of [utils/mail], which is not among the
    sources: taken as given values. *)
Record MailDefaults := {
  inviteUserTemplate : value;
  forgotPasswordTemplate : value
}.

(** [a ?? b] *)
Definition nullish_coalesce (a b : value) : value := if nullish a then b else a.

(** [v?.k] *)
Definition optional_get (v : value) (k : string) : value :=
  if nullish v then VUndef else get v k.

Definition getMailTemplates (E : Env) (D : MailDefaults) (template : string) : M value :=
  templates <- lift (globalOptions E) ;;
  if String.eqb template "inviteUserTemplate"
  then ret (nullish_coalesce (optional_get templates "inviteUserTemplate")
              (inviteUserTemplate D))
  else if String.eqb template "forgotPasswordTemplate"
       then ret (nullish_coalesce (optional_get templates "forgotPasswordTemplate")
                   (forgotPasswordTemplate D))
       else ret (VObj []).

(** ** The mail template editor *)

(** [s.replace(/pat/g, rep)] for a pattern that is a non-empty literal:
    every occurrence, from the left and without overlap.  [skip] counts the
    characters of an occurrence still to be dropped. *)
Fixpoint replace_from (pat rep : string) (skip : nat) (s : string) : string :=
  match s with
  | EmptyString => EmptyString
  | String c t =>
      match skip with
      | S k => replace_from pat rep k t
      | O =>
          if String.prefix pat s
          then rep ++ replace_from pat rep (String.length pat - 1) t
          else String c (replace_from pat rep 0 t)
      end
  end.

Definition replace_all (pat rep s : string) : string := replace_from pat rep 0 s.

Definition newline : string := String "010"%char EmptyString.

Definition br : string := "<br />".

(** [changeTemplateHandler]: the next state of [emailTemplate] when the
    input named [name] changes to [input]:
    [{ ...emailTemplate, [name]: input.replace(/\n/g, "<br />") }]. *)
Definition changeTemplateHandler (emailTemplate : value) (name input : string) : value :=
  let modifiedValue := replace_all newline br input in
  VObj (obj_set name (VStr modifiedValue) (spread [] emailTemplate)).

(** The value the body's textarea shows:
    [emailTemplate?.body?.replace(/<br \/>/g, "\n") || ""]. *)
Definition textarea_value (emailTemplate : value) : result value :=
  let body := optional_get emailTemplate "body" in
  match body with
  | VUndef | VNull => inr (VStr "")
  | VStr s =>
      let shown := VStr (replace_all br newline s) in
      inr (if truthy shown then shown else VStr "")
  | _ => inl (TypeError "emailTemplate?.body?.replace is not a function")
  end.

(** [s] has an occurrence of [pat]. *)
Fixpoint occurs (pat s : string) : bool :=
  String.prefix pat s ||
  match s with
  | EmptyString => false
  | String _ t => occurs pat t
  end.

(** ** Locales *)

Definition supportedLocales : list string :=
  ["en"; "de"; "fr"; "no"; "zh"; "pl"; "zh-tw"; "es"].

Definition languageNames : props :=
  [("default", VStr "System");
   ("de", VStr "Deutsch");
   ("en", VStr "English");
   ("fr", VStr "French");
   ("no", VStr "Norwegian");
   ("pl", VStr "Polish");
   ("zh", VStr "Chinese");
   ("zh-tw", VStr "Traditional Chinese");
   ("es", VStr "Spanish")].

(** ** Loading the module *)

(** The environment variables the module reads when it is loaded, each a
    string or [undefined]. *)
Record process_env := {
  env_ZT_ADDR : value;
  env_ZT_SECRET : value;
  env_ZT_SECRET_FILE : value;
  env_IS_GITHUB_ACTION : value
}.

(** A line of the console: a text, or an error that was caught, given by
    its message. *)
Inductive console_line :=
| LogText (text : string)
| LogError (message : string).

(** The module-level bindings once the module is loaded, with the files
    read and the console lines written on the way. *)
Record module_state := {
  mod_LOCAL_ZT_ADDR : value;
  mod_ZT_SECRET : value;
  mod_ZT_FILE : value;
  mod_files_read : list string;
  mod_console : list console_line
}.

(** [a || b] *)
Definition logical_or (a b : value) : value := if truthy a then a else b.

(** [v !== "true"] *)
Definition is_not_true_string (v : value) : bool :=
  match v with
  | VStr s => negb (String.eqb s "true")
  | _ => true
  end.

(** The module-level statements.  [readFileSync path] is what
    [fs.readFileSync(path, "utf8")] does: it returns the content ([inr]) or
    throws an error with a message ([inl]). *)
Definition load_module (env : process_env) (readFileSync : string -> string + string)
    : module_state :=
  let LOCAL_ZT_ADDR := logical_or (env_ZT_ADDR env) (VStr "http://127.0.0.1:9993") in
  let ZT_SECRET := env_ZT_SECRET env in
  let ZT_FILE :=
    logical_or (env_ZT_SECRET_FILE env) (VStr "/var/lib/zerotier-one/authtoken.secret") in
  if negb (truthy ZT_SECRET) then
    if is_not_true_string (env_IS_GITHUB_ACTION env) then
      match readFileSync (to_str ZT_FILE) with
      | inr content =>
          {| mod_LOCAL_ZT_ADDR := LOCAL_ZT_ADDR; mod_ZT_SECRET := VStr content;
             mod_ZT_FILE := ZT_FILE; mod_files_read := [to_str ZT_FILE];
             mod_console := [] |}
      | inl error =>
          {| mod_LOCAL_ZT_ADDR := LOCAL_ZT_ADDR; mod_ZT_SECRET := ZT_SECRET;
             mod_ZT_FILE := ZT_FILE; mod_files_read := [to_str ZT_FILE];
             mod_console := [LogText "an error occurred while reading the ZT_SECRET";
                             LogError error] |}
      end
    else
      {| mod_LOCAL_ZT_ADDR := LOCAL_ZT_ADDR; mod_ZT_SECRET := VStr "dummy_text_to_skip_gh";
         mod_ZT_FILE := ZT_FILE; mod_files_read := []; mod_console := [] |}
  else
    {| mod_LOCAL_ZT_ADDR := LOCAL_ZT_ADDR; mod_ZT_SECRET := ZT_SECRET;
       mod_ZT_FILE := ZT_FILE; mod_files_read := []; mod_console := [] |}.

(** An environment of the operations whose module-level constants are
    those of a loaded module. *)
Definition loaded (st : module_state) (E : Env) : Prop :=
  LOCAL_ZT_ADDR E = to_str (mod_LOCAL_ZT_ADDR st) /\ ZT_SECRET E = mod_ZT_SECRET st.

Definition sample_process_env : process_env :=
  {| env_ZT_ADDR := VUndef; env_ZT_SECRET := VStr "";
     env_ZT_SECRET_FILE := VStr "/run/secrets/zt"; env_IS_GITHUB_ACTION := VUndef |}.

Definition no_such_file (path : string) : string + string :=
  inl ("ENOENT: no such file or directory, open '" ++ path ++ "'").

(** The requests of [getControllerStats]. *)
Definition stats_list_request (E : Env) : request :=
  get_request (LOCAL_ZT_ADDR E ++ "/controller/network") (local_headers E).

Definition stats_member_request (E : Env) (network : value) : request :=
  get_request (LOCAL_ZT_ADDR E ++ "/controller/network/" ++ to_str network ++ "/member")
    (local_headers E).

Definition stats_status_request (E : Env) : request :=
  get_request (LOCAL_ZT_ADDR E ++ "/status") (local_headers E).

(** The number of keys of the body of an answer. *)
Definition key_count (a : result response) : Z :=
  Z.of_nat (length (keys (own_props (body_of a)))).

Definition listed (a : result response) : Prop :=
  fulfils a /\ nullish (body_of a) = false.

(** A local controller with two networks, of three and one members. *)
Definition stats_controller (history : list request) (rq : request) : outcome :=
  match rq_url rq with
  | "http://127.0.0.1:9993/controller/network" => ok (VArr [VStr "n1"; VStr "n2"])
  | "http://127.0.0.1:9993/controller/network/n1/member" =>
      ok (VObj [("aaaaaaaaaa", VNum 1); ("bbbbbbbbbb", VNum 1); ("cccccccccc", VNum 1)])
  | "http://127.0.0.1:9993/controller/network/n2/member" =>
      ok (VObj [("dddddddddd", VNum 4)])
  | "http://127.0.0.1:9993/status" => ok (VObj [("address", VStr "efcc1b0947")])
  | _ => Responded not_found
  end.

Definition stats_env : Env :=
  {| LOCAL_ZT_ADDR := local_addr;
     ZT_SECRET := VStr "s3cret";
     globalOptions := inr VNull;
     server := stats_controller;
     IPv4gen_null := candidates;
     first_rejection := fun _ => 0%nat |}.

Definition sample_defaults : MailDefaults :=
  {| inviteUserTemplate := VObj [("subject", VStr "invite"); ("body", VStr "...")];
     forgotPasswordTemplate := VObj [("subject", VStr "reset"); ("body", VStr "...")] |}.

(** The lines of a text: the pieces between its line feeds. *)
Fixpoint split_lines (s : string) : list string :=
  match s with
  | EmptyString => [EmptyString]
  | String c t =>
      if Ascii.eqb c "010"%char then EmptyString :: split_lines t
      else
        match split_lines t with
        | [] => [String c EmptyString]
        | l :: ls => String c l :: ls
        end
  end.

(** [lines.join(sep)]. *)
Fixpoint join (sep : string) (lines : list string) : string :=
  match lines with
  | [] => EmptyString
  | l :: t =>
      match t with
      | [] => l
      | _ :: _ => l ++ sep ++ join sep t
      end
  end.


(** * Properties *)

#[local] Arguments String.append : simpl never.

(** ** Objects *)

Section Objects.

Implicit Types (k : string) (v : value) (o tgt src : props).

Lemma lookup_None k o : lookup k o = None <-> ~ In k (keys o).
Proof.
  induction o as [|[k' v'] t IH]; simpl.
  - tauto.
  - destruct (String.eqb_spec k k') as [->|Hne].
    + split; [discriminate | intros H; exfalso; apply H; now left].
    + rewrite IH. split.
      * intros H [Heq|Hin]; [congruence | tauto].
      * intros H Hin. apply H. now right.
Qed.


Lemma In_keys_lookup k o : In k (keys o) -> exists v, lookup k o = Some v.
Proof.
  intros Hin. destruct (lookup k o) as [v|] eqn:Hl; [now exists v|].
  apply lookup_None in Hl. contradiction.
Qed.

Lemma obj_replace_None k v o : obj_replace k v o = None <-> ~ In k (keys o).
Proof.
  induction o as [|[k' v'] t IH]; simpl.
  - tauto.
  - destruct (String.eqb_spec k k') as [->|Hne].
    + split; [discriminate | intros H; exfalso; apply H; now left].
    + destruct (obj_replace k v t) as [t'|].
      * split; [discriminate|]. intros H. exfalso.
        assert (Hn : ~ In k (keys t)) by (intros Hin; apply H; now right).
        apply IH in Hn. discriminate.
      * split; [|reflexivity]. intros _ [Heq|Hin]; [congruence|].
        now apply (proj1 IH).
Qed.

Lemma obj_replace_keys k v o o' : obj_replace k v o = Some o' -> keys o' = keys o.
Proof.
  revert o'. induction o as [|[k' v'] t IH]; simpl; intros o' H.
  - discriminate.
  - destruct (String.eqb k k').
    + injection H as <-. reflexivity.
    + destruct (obj_replace k v t) as [t'|]; [|discriminate].
      injection H as <-. simpl. f_equal. now apply IH.
Qed.

Lemma obj_replace_lookup k v o o' k0 :
  obj_replace k v o = Some o' ->
  lookup k0 o' = if String.eqb k0 k then Some v else lookup k0 o.
Proof.
  revert o'. induction o as [|[k' v'] t IH]; simpl; intros o' H.
  - discriminate.
  - destruct (String.eqb_spec k k') as [->|Hne].
    + injection H as <-. simpl. now destruct (String.eqb k0 k').
    + destruct (obj_replace k v t) as [t'|]; [|discriminate].
      injection H as <-. simpl.
      destruct (String.eqb_spec k0 k') as [->|Hne'].
      * destruct (String.eqb_spec k' k); [congruence | reflexivity].
      * now apply IH.
Qed.

Lemma insert_index_keys n k v o k0 :
  In k0 (keys (insert_index n k v o)) <-> k0 = k \/ In k0 (keys o).
Proof.
  induction o as [|[k' v'] t IH]; simpl.
  - intuition congruence.
  - destruct (array_index k') as [n'|]; [destruct (n' <? n)%N|]; simpl;
      rewrite ?IH; intuition congruence.
Qed.

Lemma insert_index_lookup n k v o k0 :
  ~ In k (keys o) ->
  lookup k0 (insert_index n k v o) = if String.eqb k0 k then Some v else lookup k0 o.
Proof.
  induction o as [|[k' v'] t IH]; simpl; intros Hnin.
  - reflexivity.
  - destruct (array_index k') as [n'|]; [destruct (n' <? n)%N|]; simpl; try reflexivity.
    rewrite IH by tauto.
    destruct (String.eqb_spec k0 k') as [->|Hne]; [|reflexivity].
    destruct (String.eqb_spec k' k) as [->|Hne]; [|reflexivity].
    exfalso. apply Hnin. now left.
Qed.

Lemma insert_index_NoDup n k v o :
  ~ In k (keys o) -> NoDup (keys o) -> NoDup (keys (insert_index n k v o)).
Proof.
  induction o as [|[k' v'] t IH]; simpl; intros Hnin Hnd.
  - constructor; [tauto | constructor].
  - inversion Hnd as [|? ? Hk' Ht]; subst.
    destruct (array_index k') as [n'|]; [destruct (n' <? n)%N|]; simpl.
    + constructor.
      * change (~ In k' (keys (insert_index n k v t))).
        rewrite insert_index_keys. intros [->|Hin]; tauto.
      * apply IH; tauto.
    + constructor; [exact Hnin | exact Hnd].
    + constructor; [exact Hnin | exact Hnd].
Qed.

Lemma lookup_app k o1 o2 :
  lookup k (o1 ++ o2)%list =
  match lookup k o1 with Some x => Some x | None => lookup k o2 end.
Proof.
  induction o1 as [|[k' v'] t IH]; simpl; [reflexivity|].
  now destruct (String.eqb k k').
Qed.

Lemma obj_create_keys k v o k0 :
  In k0 (keys (obj_create k v o)) <-> k0 = k \/ In k0 (keys o).
Proof.
  unfold obj_create. destruct (array_index k).
  - apply insert_index_keys.
  - unfold keys. rewrite map_app, in_app_iff. simpl. intuition congruence.
Qed.

Lemma obj_create_lookup k v o k0 :
  ~ In k (keys o) ->
  lookup k0 (obj_create k v o) = if String.eqb k0 k then Some v else lookup k0 o.
Proof.
  intros Hnin. unfold obj_create. destruct (array_index k).
  - now apply insert_index_lookup.
  - rewrite lookup_app. simpl.
    destruct (String.eqb_spec k0 k) as [->|Hne].
    + apply lookup_None in Hnin. now rewrite Hnin.
    + now destruct (lookup k0 o).
Qed.

Lemma obj_create_NoDup k v o :
  ~ In k (keys o) -> NoDup (keys o) -> NoDup (keys (obj_create k v o)).
Proof.
  intros Hnin Hnd. unfold obj_create. destruct (array_index k).
  - now apply insert_index_NoDup.
  - unfold keys. rewrite map_app. simpl.
    apply NoDup_app; [exact Hnd | constructor; [tauto|constructor] |].
    intros x Hx [<-|[]]. contradiction.
Qed.

Lemma obj_set_keys k v o k0 :
  In k0 (keys (obj_set k v o)) <-> k0 = k \/ In k0 (keys o).
Proof.
  unfold obj_set. destruct (obj_replace k v o) as [o'|] eqn:Hr.
  - rewrite (obj_replace_keys _ _ _ _ Hr). split; [tauto|].
    intros [->|Hin]; [|assumption].
    destruct (in_dec string_dec k (keys o)) as [Hin|Hnin]; [assumption|].
    apply obj_replace_None with (v := v) in Hnin. congruence.
  - apply obj_create_keys.
Qed.

Lemma obj_set_lookup k v o k0 :
  lookup k0 (obj_set k v o) = if String.eqb k0 k then Some v else lookup k0 o.
Proof.
  unfold obj_set. destruct (obj_replace k v o) as [o'|] eqn:Hr.
  - now apply obj_replace_lookup.
  - apply obj_create_lookup. now apply obj_replace_None in Hr.
Qed.

Lemma obj_set_NoDup k v o : NoDup (keys o) -> NoDup (keys (obj_set k v o)).
Proof.
  intros Hnd. unfold obj_set. destruct (obj_replace k v o) as [o'|] eqn:Hr.
  - now rewrite (obj_replace_keys _ _ _ _ Hr).
  - apply obj_create_NoDup; [|exact Hnd]. now apply obj_replace_None in Hr.
Qed.

Lemma assign_keys tgt src k :
  In k (keys (assign tgt src)) <-> In k (keys tgt) \/ In k (keys src).
Proof.
  unfold assign. revert tgt. induction src as [|[k' v'] t IH]; simpl; intros tgt.
  - tauto.
  - rewrite IH, obj_set_keys. intuition congruence.
Qed.

Lemma assign_lookup_other tgt src k :
  ~ In k (keys src) -> lookup k (assign tgt src) = lookup k tgt.
Proof.
  unfold assign. revert tgt. induction src as [|[k' v'] t IH]; simpl; intros tgt Hnin.
  - reflexivity.
  - rewrite IH by tauto. rewrite obj_set_lookup.
    destruct (String.eqb_spec k k'); [subst; tauto | reflexivity].
Qed.

(** The later spread wins: a key of a well-formed [src] takes [src]'s value. *)
Lemma assign_lookup tgt src k :
  NoDup (keys src) ->
  lookup k (assign tgt src) =
  match lookup k src with Some x => Some x | None => lookup k tgt end.
Proof.
  unfold assign. revert tgt. induction src as [|[k' v'] t IH]; simpl; intros tgt Hnd.
  - reflexivity.
  - inversion Hnd as [|? ? Hk' Ht]; subst.
    destruct (String.eqb_spec k k') as [->|Hne].
    + fold (assign (obj_set k' v' tgt) t). rewrite assign_lookup_other by assumption.
      rewrite obj_set_lookup, String.eqb_refl. reflexivity.
    + rewrite IH by assumption. rewrite obj_set_lookup.
      destruct (String.eqb_spec k k'); [contradiction | reflexivity].
Qed.

Lemma assign_NoDup tgt src : NoDup (keys tgt) -> NoDup (keys (assign tgt src)).
Proof.
  unfold assign. revert tgt. induction src as [|[k' v'] t IH]; simpl; intros tgt Hnd.
  - assumption.
  - apply IH. now apply obj_set_NoDup.
Qed.

Lemma rest_props_lookup ks m k :
  lookup k (rest_props ks m) =
  if existsb (String.eqb k) ks then None else lookup k (own_props m).
Proof.
  unfold rest_props. induction (own_props m) as [|[k' v'] t IH]; simpl.
  - now destruct (existsb _ ks).
  - unfold excluded at 1. simpl.
    destruct (String.eqb_spec k k') as [->|Hne].
    + destruct (existsb (String.eqb k') ks) eqn:Hx; simpl.
      * exact IH.
      * now rewrite String.eqb_refl.
    + destruct (existsb (String.eqb k') ks); simpl; [exact IH|].
      destruct (String.eqb_spec k k'); [contradiction | exact IH].
Qed.

Lemma rest_props_keys ks m k :
  In k (keys (rest_props ks m)) <->
  In k (keys (own_props m)) /\ existsb (String.eqb k) ks = false.
Proof.
  unfold rest_props. induction (own_props m) as [|[k' v'] t IH]; simpl.
  - tauto.
  - unfold excluded at 1. simpl.
    destruct (existsb (String.eqb k') ks) eqn:Hx; simpl; rewrite IH.
    + split; [tauto|]. intros [[->|Hin] Hk]; [congruence | tauto].
    + split; [intros [->|[Hin Hk]]; tauto | tauto].
Qed.

Lemma rest_props_NoDup ks m :
  NoDup (keys (own_props m)) -> NoDup (keys (rest_props ks m)).
Proof.
  unfold rest_props. induction (own_props m) as [|[k' v'] t IH]; simpl; intros Hnd.
  - constructor.
  - inversion Hnd as [|? ? Hk' Ht]; subst.
    destruct (excluded ks (k', v')); simpl; [now apply IH|].
    constructor; [|now apply IH].
    intros Hin. apply Hk'. clear - Hin.
    induction t as [|[k2 v2] t IH]; simpl in *; [assumption|].
    destruct (excluded ks (k2, v2)); simpl in *; tauto.
Qed.

End Objects.

(** ** The flattening layer *)

Lemma flattenCentralMember_object o :
  flattenCentralMember (VObj o) =
  inr (VObj (flat_literal "nodeId" (get (VObj o) "id") (get (VObj o) "config")
               (rest_props ["id"; "config"] (VObj o)))).
Proof. reflexivity. Qed.

Lemma flattenNetwork_object o :
  flattenNetwork (VObj o) =
  inr (VObj (flat_literal "nwid" (get (VObj o) "id") (get (VObj o) "config")
               (rest_props ["id"; "config"] (VObj o)))).
Proof. reflexivity. Qed.

Lemma flat_literal_keys idKey id config otherProps k :
  In k (keys (flat_literal idKey id config otherProps)) <->
  k = idKey \/ In k (keys (own_props config)) \/ In k (keys otherProps).
Proof.
  unfold flat_literal, spread. rewrite !assign_keys, obj_set_keys. simpl. tauto.
Qed.

Lemma flat_literal_wf idKey id config otherProps :
  obj_wf (flat_literal idKey id config otherProps).
Proof.
  unfold flat_literal, spread, obj_wf.
  apply assign_NoDup, assign_NoDup, obj_set_NoDup. constructor.
Qed.

Lemma flat_literal_id idKey id config otherProps :
  ~ In idKey (keys (own_props config)) -> ~ In idKey (keys otherProps) ->
  lookup idKey (flat_literal idKey id config otherProps) = Some id.
Proof.
  intros Hc Hr. unfold flat_literal, spread.
  rewrite !assign_lookup_other by assumption.
  now rewrite obj_set_lookup, String.eqb_refl.
Qed.

(** In the flattened literal the remaining top-level fields are spread
    last: a key they carry keeps their value. *)
Lemma flat_literal_rest_wins idKey id config otherProps k v :
  NoDup (keys otherProps) ->
  lookup k otherProps = Some v ->
  lookup k (flat_literal idKey id config otherProps) = Some v.
Proof.
  intros Hnd Hk. unfold flat_literal, spread at 1. simpl own_props.
  now rewrite assign_lookup, Hk.
Qed.

Lemma flat_literal_config idKey id config otherProps k :
  NoDup (keys (own_props config)) ->
  ~ In k (keys otherProps) ->
  lookup k (flat_literal idKey id config otherProps) =
  match lookup k (own_props config) with
  | Some x => Some x
  | None => if String.eqb k idKey then Some id else None
  end.
Proof.
  intros Hnd Hk. unfold flat_literal, spread.
  rewrite assign_lookup_other by assumption.
  rewrite assign_lookup by assumption.
  now rewrite obj_set_lookup.
Qed.

Lemma rest_not_id_config m k :
  k = "id" \/ k = "config" -> ~ In k (keys (rest_props ["id"; "config"] m)).
Proof.
  intros Hk Hin. apply rest_props_keys in Hin. destruct Hin as [_ Hx].
  destruct Hk as [-> | ->]; discriminate.
Qed.

(** C1, counterexample: a member as Central sends it has a top-level
    [nodeId] and a [config.id]; flattened, its [nodeId] is not the record's
    [id] and an [id] key remains. *)
Lemma flatten_member_identifier_shadowed :
  ~ flattens_cleanly flattenCentralMember "nodeId" central_member.
Proof.
  intros (flat & Hf & Hid & _ & Hres & _).
  vm_compute in Hf. injection Hf as <-.
  vm_compute in Hid. discriminate Hid.
Qed.

(** C1, as amended: for every wire-shaped record [{id, config, ...rest}]
    both single-record flatteners return a record whose key set is exactly
    the identifier ([nodeId], resp. [nwid]) together with the keys of
    [config] and of [rest]; the identifier field equals the input's [id]
    when neither [config] nor [rest] has a key of that name, and no [id] or
    [config] key remains when [config] itself has none. *)
Theorem flatten_record_shape (o : props) :
  let record := VObj o in
  let id := get record "id" in
  let config := own_props (get record "config") in
  let rest := rest_props ["id"; "config"] record in
  exists fm fn,
    flattenCentralMember record = inr (VObj fm) /\
    flattenNetwork record = inr (VObj fn) /\
    (forall k, In k (keys fm) <-> k = "nodeId" \/ In k (keys config) \/ In k (keys rest)) /\
    (forall k, In k (keys fn) <-> k = "nwid" \/ In k (keys config) \/ In k (keys rest)) /\
    (~ In "nodeId" (keys config) -> ~ In "nodeId" (keys rest) ->
     lookup "nodeId" fm = Some id) /\
    (~ In "nwid" (keys config) -> ~ In "nwid" (keys rest) ->
     lookup "nwid" fn = Some id) /\
    (forall k, k = "id" \/ k = "config" -> ~ In k (keys config) ->
               ~ In k (keys fm) /\ ~ In k (keys fn)).
Proof.
  intros record id config rest.
  eexists. eexists.
  split; [apply flattenCentralMember_object|].
  split; [apply flattenNetwork_object|].
  split; [intros k; apply flat_literal_keys|].
  split; [intros k; apply flat_literal_keys|].
  split; [apply flat_literal_id|].
  split; [apply flat_literal_id|].
  intros k Hk Hc.
  pose proof (rest_not_id_config record k Hk) as Hr.
  split; rewrite flat_literal_keys; intros [Heq|[Hin|Hin]];
    try contradiction; destruct Hk as [-> | ->]; discriminate.
Qed.

(** The amended C1 at a record without collisions: there the claim holds
    as it was stated. *)
Lemma flatten_record_shape_plain :
  flattens_cleanly flattenNetwork "nwid" plain_network.
Proof.
  destruct (flatten_record_shape
              [("id", VStr "8056c2e21c000001");
               ("config", VObj [("name", VStr "lab"); ("private", VBool true)]);
               ("description", VStr "created with ztnet")])
    as (fm & fn & Hm & Hn & Hkm & Hkn & Him & Hin & Hres).
  exists fn. split; [exact Hn|].
  split.
  - apply Hin; simpl; intros H; repeat destruct H as [H|H]; try discriminate H; exact H.
  - split; [exact Hkn|].
    split; apply Hres; try tauto; simpl; intros H;
      repeat destruct H as [H|H]; try discriminate H; exact H.
Defined.

(** ** The transport wrapper *)

Ltac run_monad :=
  unfold bind, try_catch, ret, throw, lift, console_error; simpl.

Lemma bind_ext {A B : Type} (m : M A) (k1 k2 : A -> M B) w :
  (forall a w', k1 a w' = k2 a w') -> bind m k1 w = bind m k2 w.
Proof.
  intros Hk. unfold bind. destruct (m w) as [[e|a] w']; [reflexivity | apply Hk].
Qed.

Lemma try_catch_ext {A : Type} (b1 b2 : M A) (handler : exn -> M A) w :
  b1 w = b2 w -> try_catch b1 handler w = try_catch b2 handler w.
Proof. intros Hb. unfold try_catch. now rewrite Hb. Qed.

Lemma try_catch_bind_ok {A B : Type} (m : M A) (k : A -> M B) (handler : exn -> M B)
    w a w' :
  m w = (inr a, w') ->
  try_catch (bind m k) handler w = try_catch (k a) handler w'.
Proof. intros Hm. unfold try_catch, bind. now rewrite Hm. Qed.

Lemma try_catch_bind_throws {A B : Type} (m : M A) (k : A -> M B) (handler : exn -> M B)
    w e w' :
  m w = (inl e, w') ->
  try_catch (bind m k) handler w = handler e w'.
Proof. intros Hm. unfold try_catch, bind. now rewrite Hm. Qed.

Section Transport.

Variable E : Env.

Lemma axios_get_run addr h w :
  axios_get E addr h w = (settle (server E (requests w) (get_request addr h)),
                          sent w (get_request addr h)).
Proof. reflexivity. Qed.

Lemma getData_error_cause addr error :
  exists message, getData_error addr error = APIError message (Some error).
Proof.
  unfold getData_error, InvalidCredentials, NotFound, TransportFailure.
  destruct (status_is _ 401); [eauto|]. destruct (status_is _ 404); eauto.
Qed.

Lemma getData_run addr h w :
  getData E addr h w =
  (match settle (server E (requests w) (get_request addr h)) with
   | inr r => inr (data r)
   | inl error => inl (getData_error addr error)
   end, sent w (get_request addr h)).
Proof.
  unfold getData, axios_get, axios, bind, try_catch, ret, throw.
  fold (get_request addr h).
  destruct (settle _) as [error|r]; [|reflexivity].
  unfold getData_error, InvalidCredentials, NotFound, TransportFailure.
  destruct error as [m [r|]|m|m c|m]; simpl; try reflexivity.
  unfold status_is, response_status.
  destruct (status r =? 401)%Z; [reflexivity|].
  destruct (status r =? 404)%Z; reflexivity.
Qed.

Lemma postData_run addr h payload w :
  postData E addr h payload w =
  (match settle (server E (requests w) (post_request addr h payload)) with
   | inr r => inr (data r)
   | inl error => inl (postData_error addr error)
   end, sent w (post_request addr h payload)).
Proof.
  unfold postData, axios_post, axios. run_monad.
  fold (post_request addr h payload).
  destruct (settle _); reflexivity.
Qed.

Lemma getData_world addr h w r w' :
  getData E addr h w = (r, w') -> w' = sent w (get_request addr h).
Proof. rewrite getData_run. now intros [= _ <-]. Qed.

Lemma getData_throws_APIError addr h w e w' :
  getData E addr h w = (inl e, w') -> is_APIError e.
Proof.
  rewrite getData_run. destruct (settle _) as [error|r]; intros [= <- _].
  destruct (getData_error_cause addr error) as [m Hm]. rewrite Hm.
  now exists m, (Some error).
Qed.

Lemma postData_throws_APIError addr h p w e w' :
  postData E addr h p w = (inl e, w') -> is_APIError e.
Proof.
  rewrite postData_run. destruct (settle _) as [error|r]; intros [= <- _].
  now eexists _, _.
Qed.

Lemma getOptions_world isCentral w r w' :
  getOptions E isCentral w = (r, w') -> w' = w.
Proof.
  unfold getOptions, getApiCredentials. destruct isCentral; run_monad.
  - destruct (globalOptions E) as [e|creds]; [now intros [= _ <-]|].
    destruct (nullish creds); now intros [= _ <-].
  - now intros [= _ <-].
Qed.

Lemma getOptions_local w :
  getOptions E false w =
  (inr {| ztCentralApiUrl := VNull;
          headers := VObj [("X-ZT1-Auth", ZT_SECRET E);
                           ("Content-Type", VStr "application/json")] |}, w).
Proof. reflexivity. Qed.

Lemma settle_status r :
  settle (Responded r) = if validateStatus (status r) then inr r else inl (status_error r).
Proof. reflexivity. Qed.

Lemma network_delete_run nwid isCentral w o w0 :
  getOptions E isCentral w = (inr o, w0) ->
  let addr := if isCentral then to_str (ztCentralApiUrl o) ++ "/network/" ++ nwid
              else LOCAL_ZT_ADDR E ++ "/controller/network/" ++ nwid in
  network_delete E nwid isCentral w =
  (match settle (server E (requests w0) (delete_request addr (headers o))) with
   | inr r => inr (VObj [("status", VNum (status r)); ("data", VUndef)])
   | inl error =>
       inl (TransportFailure
              (prefix isCentral ++ "An error occurred while getting network_delete") error)
   end, sent w0 (delete_request addr (headers o))).
Proof.
  intros Ho addr. unfold network_delete. run_monad. rewrite Ho.
  unfold axios_delete, axios. fold addr. fold (delete_request addr (headers o)).
  destruct (settle _); reflexivity.
Qed.

Lemma member_delete_run nwid memberId central w o w0 :
  getOptions E central w = (inr o, w0) ->
  let addr := member_addr E o nwid memberId central in
  member_delete E nwid memberId central w =
  (match settle (server E (requests w0) (delete_request addr (headers o))) with
   | inr r => inr (VNum (status r))
   | inl error =>
       inl (TransportFailure
              (prefix central ++ "An error occurred while getting member_delete") error)
   end, sent w0 (delete_request addr (headers o))).
Proof.
  intros Ho addr. unfold member_delete. run_monad. rewrite Ho.
  unfold axios_delete, axios. fold addr. fold (delete_request addr (headers o)).
  destruct (settle _); reflexivity.
Qed.

End Transport.

(** C4, counterexample: a POST answered by 401 does not surface as
    [InvalidCredentials]; [postData] does not look at the status. *)
Lemma post_unauthorized_is_not_classified :
  ~ exists cause w',
      postData (constant_env (Responded unauthorized))
        "https://api.zerotier.com/api/v1/network" VNull (VObj []) no_requests
      = (inl (InvalidCredentials cause), w').
Proof.
  intros (cause & w' & H). vm_compute in H. discriminate H.
Qed.

(** C4, as amended: on either backend (the address and the headers are
    arbitrary), a GET through [getData] surfaces a 401 response as
    [InvalidCredentials], a 404 as [NotFound], and any other non-2xx
    response or failure without a response as a [TransportFailure], each
    carrying the original error of axios.  A POST through [postData] and the
    DELETE of [network_delete] and [member_delete] classify nothing: every
    failure, 401 and 404 included, surfaces as a [TransportFailure] with the
    helper's or operation's message, carrying the original error. *)
Theorem transport_error_taxonomy (E : Env) (addr : string) (h payload : value) (w : world) :
  (forall r, server E (requests w) (get_request addr h) = Responded r ->
     validateStatus (status r) = false ->
     getData E addr h w =
     (inl (if (status r =? 401)%Z then InvalidCredentials (status_error r)
           else if (status r =? 404)%Z then NotFound (status_error r)
           else TransportFailure ("An error occurred fetching data from " ++ addr)
                  (status_error r)),
      sent w (get_request addr h))) /\
  (forall e, server E (requests w) (get_request addr h) = Failed e ->
     response_status e = None ->
     getData E addr h w =
     (inl (TransportFailure ("An error occurred fetching data from " ++ addr) e),
      sent w (get_request addr h))) /\
  (forall e, settle (server E (requests w) (post_request addr h payload)) = inl e ->
     postData E addr h payload w =
     (inl (TransportFailure ("An error occurred while posting data to " ++ addr) e),
      sent w (post_request addr h payload))) /\
  (forall nwid isCentral o w0 e,
     getOptions E isCentral w = (inr o, w0) ->
     (let addr := if isCentral then to_str (ztCentralApiUrl o) ++ "/network/" ++ nwid
                  else LOCAL_ZT_ADDR E ++ "/controller/network/" ++ nwid in
      settle (server E (requests w0) (delete_request addr (headers o))) = inl e) ->
     exists w',
       network_delete E nwid isCentral w =
       (inl (TransportFailure
               (prefix isCentral ++ "An error occurred while getting network_delete") e),
        w')) /\
  (forall nwid memberId central o w0 e,
     getOptions E central w = (inr o, w0) ->
     settle (server E (requests w0)
               (delete_request (member_addr E o nwid memberId central) (headers o))) = inl e ->
     exists w',
       member_delete E nwid memberId central w =
       (inl (TransportFailure
               (prefix central ++ "An error occurred while getting member_delete") e),
        w')).
Proof.
  repeat split.
  - intros r Hr Hv. rewrite getData_run, Hr, settle_status, Hv.
    unfold getData_error, status_error. simpl. reflexivity.
  - intros e He Hs. rewrite getData_run, He. simpl.
    unfold getData_error. rewrite Hs. reflexivity.
  - intros e He. rewrite postData_run, He. reflexivity.
  - intros nwid isCentral o w0 e Ho He.
    rewrite (network_delete_run E nwid isCentral w o w0 Ho).
    cbv zeta in He. rewrite He. eauto.
  - intros nwid memberId central o w0 e Ho He.
    rewrite (member_delete_run E nwid memberId central w o w0 Ho).
    cbv zeta. rewrite He. eauto.
Qed.

(** The amended C4 at concrete answers: 401 and 404 through [getData], and
    the same 401 through [postData]. *)
Lemma transport_error_taxonomy_sample :
  getData (constant_env (Responded unauthorized)) "http://h/status" VNull no_requests
  = (inl (InvalidCredentials (status_error unauthorized)),
     sent no_requests (get_request "http://h/status" VNull)) /\
  getData (constant_env (Responded not_found)) "http://h/status" VNull no_requests
  = (inl (NotFound (status_error not_found)),
     sent no_requests (get_request "http://h/status" VNull)) /\
  postData (constant_env (Responded unauthorized)) "http://h/network" VNull (VObj []) no_requests
  = (inl (TransportFailure "An error occurred while posting data to http://h/network"
            (status_error unauthorized)),
     sent no_requests (post_request "http://h/network" VNull (VObj []))).
Proof.
  split; [|split].
  - exact (proj1 (transport_error_taxonomy (constant_env (Responded unauthorized))
                    "http://h/status" VNull VNull no_requests)
             unauthorized eq_refl eq_refl).
  - exact (proj1 (transport_error_taxonomy (constant_env (Responded not_found))
                    "http://h/status" VNull VNull no_requests)
             not_found eq_refl eq_refl).
  - exact (proj1 (proj2 (proj2 (transport_error_taxonomy
                                  (constant_env (Responded unauthorized))
                                  "http://h/network" VNull (VObj []) no_requests)))
             (status_error unauthorized) eq_refl).
Defined.

(** ** The detail aggregator *)

Section Aggregator.

Variable E : Env.

Lemma requests_sent_all w rqs :
  requests (sent_all w rqs) = (requests w ++ rqs)%list.
Proof.
  unfold sent_all. revert w. induction rqs as [|rq t IH]; intros w; simpl.
  - now rewrite app_nil_r.
  - rewrite IH. simpl. now rewrite <- app_assoc.
Qed.

Lemma sent_all_app w rqs1 rqs2 :
  sent_all w (rqs1 ++ rqs2)%list = sent_all (sent_all w rqs1) rqs2.
Proof. unfold sent_all. apply fold_left_app. Qed.


Lemma answers_length history rqs : length (answers E history rqs) = length rqs.
Proof.
  revert history. induction rqs as [|rq t IH]; intros history; simpl; [reflexivity|].
  now rewrite IH.
Qed.

(** *** The sequential loop of the Local aggregation *)

Lemma for_each_member_app nwid h pre post acc w :
  for_each_member E nwid h (pre ++ post)%list acc w =
  match for_each_member E nwid h pre acc w with
  | (inr acc', w') => for_each_member E nwid h post acc' w'
  | (inl e, w') => (inl e, w')
  end.
Proof.
  revert acc w. induction pre as [|[memberId x] t IH]; intros acc w; simpl.
  - reflexivity.
  - unfold bind. destruct (getData E _ h w) as [[e|d] w1]; [reflexivity|].
    apply IH.
Qed.

Lemma for_each_member_ok nwid h entries acc w :
  Forall fulfils (answers E (requests w) (local_detail_requests E nwid h entries)) ->
  for_each_member E nwid h entries acc w =
  (inr (acc ++ map body_of (answers E (requests w) (local_detail_requests E nwid h entries)))%list,
   sent_all w (local_detail_requests E nwid h entries)).
Proof.
  revert acc w. induction entries as [|[memberId x] t IH]; intros acc w; simpl; intros Hall.
  - now rewrite app_nil_r.
  - inversion Hall as [|a l [r Hr] Ht]; subst.
    unfold bind. fold (local_member_url E nwid memberId).
    rewrite getData_run, Hr.
    change (requests w ++ [get_request (local_member_url E nwid memberId) h])%list
      with (requests (sent w (get_request (local_member_url E nwid memberId) h))) in Ht |- *.
    rewrite IH by exact Ht.
    simpl. now rewrite <- app_assoc.
Qed.

Lemma for_each_member_stops nwid h pre memberId x post acc w e :
  Forall fulfils (answers E (requests w) (local_detail_requests E nwid h pre)) ->
  settle (server E (requests w ++ local_detail_requests E nwid h pre)%list
            (get_request (local_member_url E nwid memberId) h)) = inl e ->
  for_each_member E nwid h (pre ++ (memberId, x) :: post)%list acc w =
  (inl (getData_error (local_member_url E nwid memberId) e),
   sent_all w (local_detail_requests E nwid h (pre ++ [(memberId, x)])%list)).
Proof.
  intros Hpre Hfail.
  rewrite for_each_member_app, for_each_member_ok by exact Hpre.
  simpl. unfold bind. fold (local_member_url E nwid memberId).
  rewrite getData_run, requests_sent_all, Hfail.
  unfold local_detail_requests. rewrite map_app, sent_all_app. reflexivity.
Qed.

Lemma network_members_local_run nwid w :
  network_members E nwid false w =
  let rq := get_request (LOCAL_ZT_ADDR E ++ "/controller/network/" ++ nwid ++ "/member")
              (local_headers E) in
  (match settle (server E (requests w) rq) with
   | inr r => inr (data r)
   | inl error =>
       inl (TransportFailure "An error occurred while getting network_members"
              (getData_error (rq_url rq) error))
   end, sent w rq).
Proof.
  unfold network_members. run_monad. rewrite getData_run.
  fold (local_headers E).
  destruct (settle _); reflexivity.
Qed.

(** C5, as amended: given the member-id list and the network record that
    the first two requests returned, the Local aggregation has issued the
    list request and then the network request; it then fetches the members'
    details one after the other in the order of the list's entries.  When
    every detail request is answered, exactly one was issued per entry and
    the call returns the network with the details in that order.  When the
    request of some entry fails after those of the entries before it were
    answered, no later request is issued, what was fetched is dropped and
    the call throws an [APIError] carrying the failure. *)
Theorem local_detail_sequential (nwid : string) (isCentral : bool) (w w0 w1 w2 : world)
    (o : GetOptionsResponse) (members network : value) (entries : props) :
  getOptions E isCentral w = (inr o, w0) ->
  network_members E nwid false w0 = (inr members, w1) ->
  getData E (LOCAL_ZT_ADDR E ++ "/controller/network/" ++ nwid) (headers o) w1
    = (inr network, w2) ->
  Object_entries members = inr entries ->
  let h := headers o in
  requests w2 =
    (requests w ++
     [get_request (LOCAL_ZT_ADDR E ++ "/controller/network/" ++ nwid ++ "/member")
        (local_headers E);
      get_request (LOCAL_ZT_ADDR E ++ "/controller/network/" ++ nwid) h])%list /\
  (Forall fulfils (answers E (requests w2) (local_detail_requests E nwid h entries)) ->
   local_network_detail E nwid isCentral w =
   (inr (VObj [("network", VObj (spread [] network));
               ("members",
                VArr (map body_of
                        (answers E (requests w2) (local_detail_requests E nwid h entries))))]),
    sent_all w2 (local_detail_requests E nwid h entries))) /\
  (forall pre memberId x post e,
     entries = (pre ++ (memberId, x) :: post)%list ->
     Forall fulfils (answers E (requests w2) (local_detail_requests E nwid h pre)) ->
     settle (server E (requests w2 ++ local_detail_requests E nwid h pre)%list
               (get_request (local_member_url E nwid memberId) h)) = inl e ->
     local_network_detail E nwid isCentral w =
     (inl (APIError local_detail_message
             (Some (getData_error (local_member_url E nwid memberId) e))),
      sent_all w2 (local_detail_requests E nwid h (pre ++ [(memberId, x)])%list))).
Proof.
  intros Ho Hm Hn He h.
  split; [|split].
  - apply getOptions_world in Ho. subst w0.
    apply getData_world in Hn. subst w2.
    rewrite network_members_local_run in Hm. cbv zeta in Hm.
    injection Hm as _ <-. simpl. rewrite <- app_assoc. reflexivity.
  - intros Hall. unfold local_network_detail. run_monad.
    rewrite Ho, Hm, Hn, He.
    rewrite for_each_member_ok by exact Hall. reflexivity.
  - intros pre memberId x post e -> Hpre Hfail.
    unfold local_network_detail. run_monad.
    rewrite Ho, Hm, Hn, He.
    rewrite (for_each_member_stops nwid (headers o) pre memberId x post [] w2 e Hpre Hfail).
    reflexivity.
Qed.

End Aggregator.

(** C5, counterexample: with three members and every request answered,
    the network record is requested second, before any member detail, and
    not last as the claim has it. *)
Lemma local_detail_network_fetched_first :
  map rq_url
    (requests (snd (local_network_detail (local_env (ok VNull)) "n1" false no_requests)))
  <> claimed_local_order (local_env (ok VNull)) "n1" (keys three_members).
Proof. vm_compute. discriminate. Qed.

(** The amended C5 at the controller with three members of which the
    third cannot be fetched: five requests are issued, the two details
    already fetched are dropped, and the call throws. *)
Lemma local_detail_third_fails :
  local_network_detail (local_env (Responded unavailable)) "n1" false no_requests =
  (inl (APIError local_detail_message
          (Some (getData_error
                   (local_member_url (local_env (Responded unavailable)) "n1" "cccccccccc")
                   (status_error unavailable)))),
   sent_all no_requests
     (map (fun url => get_request url (local_headers (local_env (Responded unavailable))))
        ["http://127.0.0.1:9993/controller/network/n1/member";
         "http://127.0.0.1:9993/controller/network/n1";
         "http://127.0.0.1:9993/controller/network/n1/member/aaaaaaaaaa";
         "http://127.0.0.1:9993/controller/network/n1/member/bbbbbbbbbb";
         "http://127.0.0.1:9993/controller/network/n1/member/cccccccccc"])).
Proof.
  set (E := local_env (Responded unavailable)).
  pose (h := local_headers E).
  pose (w1 := sent no_requests
                (get_request "http://127.0.0.1:9993/controller/network/n1/member" h)).
  pose (w2 := sent w1 (get_request "http://127.0.0.1:9993/controller/network/n1" h)).
  destruct (local_detail_sequential E "n1" false no_requests no_requests w1 w2
              {| ztCentralApiUrl := VNull; headers := h |}
              (VObj three_members)
              (VObj [("id", VStr "n1"); ("name", VStr "lab")])
              three_members
              eq_refl eq_refl eq_refl eq_refl) as (_ & _ & Hstop).
  exact (Hstop [("aaaaaaaaaa", VNum 1); ("bbbbbbbbbb", VNum 1)] "cccccccccc" (VNum 1) []
           (status_error unavailable) eq_refl
           (Forall_cons _ (ex_intro _ _ eq_refl)
              (Forall_cons _ (ex_intro _ _ eq_refl) (Forall_nil _)))
           eq_refl).
Defined.

Section CentralAggregator.

Variable E : Env.

(** *** The fan-out of the Central aggregation *)

Lemma start_all_getData addr h ms w :
  start_all (map (fun member =>
                    getData E (addr ++ "/member/"
                                 ++ to_str (if nullish member then VUndef
                                            else get member "nodeId")) h) ms) w =
  (inr (settle_details addr ms (answers E (requests w) (central_detail_requests addr h ms))),
   sent_all w (central_detail_requests addr h ms)).
Proof.
  revert w. induction ms as [|member t IH]; intros w; [reflexivity|].
  cbn [map start_all]. unfold bind at 1. unfold settled.
  fold (central_member_url addr member).
  rewrite getData_run. unfold bind at 1.
  rewrite IH. unfold ret. cbn [central_detail_requests map answers settle_details sent_all
                                 fold_left].
  fold (central_member_url addr member).
  destruct (settle (server E (requests w) _)); reflexivity.
Qed.

Lemma settle_details_fulfilled addr ms ans :
  length ms = length ans -> Forall fulfils ans ->
  rejections (settle_details addr ms ans) = [] /\
  fulfilled (settle_details addr ms ans) = map body_of ans.
Proof.
  revert ans. induction ms as [|m t IH]; intros [|a ans] Hlen Hall;
    try discriminate; [now split|].
  inversion Hall as [|? ? [r ->] Ht]; subst. simpl.
  destruct (IH ans) as [Hr Hf]; [simpl in Hlen; congruence | exact Ht|].
  rewrite Hr, Hf. now split.
Qed.

Lemma settle_details_rejected addr ms ans e :
  length ms = length ans -> In (inl e) ans ->
  rejections (settle_details addr ms ans) <> [].
Proof.
  revert ans. induction ms as [|m t IH]; intros [|a ans] Hlen Hin;
    try discriminate; [destruct Hin|].
  simpl. destruct a as [e'|r]; [discriminate|].
  destruct Hin as [Heq|Hin]; [discriminate|].
  apply IH; [simpl in Hlen; congruence | exact Hin].
Qed.

Lemma settle_details_no_rejection addr ms ans :
  length ms = length ans ->
  rejections (settle_details addr ms ans) = [] -> Forall fulfils ans.
Proof.
  revert ans. induction ms as [|m t IH]; intros [|a ans] Hlen Hrej;
    try discriminate; [constructor|].
  simpl in Hrej. destruct a as [e|r]; [discriminate|].
  constructor; [now exists r|]. apply IH; [simpl in Hlen; congruence | exact Hrej].
Qed.

Lemma Promise_all_rejects {A : Type} (rs : list (result A)) :
  rejections rs <> [] ->
  exists e, Promise_all E rs = inl e /\ In e (rejections rs).
Proof.
  unfold Promise_all. destruct (rejections rs) as [|e es]; [congruence|]. intros _.
  eexists. split; [reflexivity|].
  destruct (nth_in_or_default (first_rejection E (e :: es)) (e :: es) e) as [Hin|Heq].
  - exact Hin.
  - rewrite Heq. now left.
Qed.

Lemma map_result_length {A B : Type} (f : A -> result B) l l' :
  map_result f l = inr l' -> length l' = length l.
Proof.
  revert l'. induction l as [|x t IH]; simpl; intros l' H.
  - now injection H as <-.
  - destruct (f x); [discriminate|]. destruct (map_result f t); [discriminate|].
    injection H as <-. simpl. f_equal. now apply IH.
Qed.

Lemma flattenCentralMembers_array l :
  flattenCentralMembers (VArr l) =
  match map_result flattenCentralMember l with
  | inl e => inl e
  | inr l' => inr (VArr l')
  end.
Proof. reflexivity. Qed.

(** What the Central aggregation does once the member list and the
    network record are there. *)
Lemma central_network_detail_run nwid isCentral w w0 w1 w2 o members network :
  getOptions E isCentral w = (inr o, w0) ->
  network_members E nwid isCentral w0 = (inr members, w1) ->
  getData E (network_addr E o nwid isCentral) (headers o) w1 = (inr network, w2) ->
  central_network_detail E nwid isCentral w =
  try_catch
    (promises <- lift (member_requests E (network_addr E o nwid isCentral) (headers o)
                         members) ;;
     settled <- start_all promises ;;
     membersArr <- lift (Promise_all E settled) ;;
     lift (assemble_detail E network membersArr))
    (fun error => throw (APIError (central_detail_message isCentral) (Some error))) w2.
Proof.
  intros Ho Hm Hn. unfold central_network_detail.
  unfold bind at 1. rewrite Ho.
  fold (network_addr E o nwid isCentral).
  rewrite (try_catch_bind_ok _ _ _ _ _ _ Hm).
  rewrite (try_catch_bind_ok _ _ _ _ _ _ Hn).
  apply try_catch_ext.
  apply bind_ext. intros promises w3.
  apply bind_ext. intros settled w4.
  apply bind_ext. intros membersArr w5.
  unfold assemble_detail.
  destruct (nullish (IPv4gen_null E)); [reflexivity|].
  destruct (nullish network); [reflexivity|].
  unfold bind, lift, ret.
  destruct (flattenCentralMembers (VArr membersArr)) as [e|flat]; [reflexivity|].
  destruct (iterate flat); reflexivity.
Qed.

Lemma central_network_detail_array nwid isCentral w w0 w1 w2 o ms network :
  getOptions E isCentral w = (inr o, w0) ->
  network_members E nwid isCentral w0 = (inr (VArr ms), w1) ->
  getData E (network_addr E o nwid isCentral) (headers o) w1 = (inr network, w2) ->
  let addr := network_addr E o nwid isCentral in
  let rqs := central_detail_requests addr (headers o) ms in
  central_network_detail E nwid isCentral w =
  (match Promise_all E (settle_details addr ms (answers E (requests w2) rqs)) with
   | inl e => inl (APIError (central_detail_message isCentral) (Some e))
   | inr membersArr =>
       match assemble_detail E network membersArr with
       | inl e => inl (APIError (central_detail_message isCentral) (Some e))
       | inr res => inr res
       end
   end, sent_all w2 rqs).
Proof.
  intros Ho Hm Hn addr rqs.
  rewrite (central_network_detail_run nwid isCentral w w0 w1 w2 o (VArr ms) network Ho Hm Hn).
  fold addr. unfold try_catch, bind at 1. cbn [member_requests lift].
  unfold bind at 1. rewrite start_all_getData. fold rqs.
  unfold bind, lift, throw.
  destruct (Promise_all E _) as [e|membersArr]; [reflexivity|].
  destruct (assemble_detail E network membersArr); reflexivity.
Qed.

Lemma assemble_detail_members network membersArr res :
  assemble_detail E network membersArr = inr res ->
  exists flat,
    flattenCentralMembers (VArr membersArr) = inr (VArr flat) /\
    length flat = length membersArr /\
    get res "members" = VArr flat.
Proof.
  unfold assemble_detail.
  destruct (nullish (IPv4gen_null E)); [discriminate|].
  destruct (nullish network); [discriminate|].
  rewrite flattenCentralMembers_array.
  destruct (map_result flattenCentralMember membersArr) as [e|flat] eqn:Hflat;
    [discriminate|].
  simpl. intros [= <-]. exists flat. split; [reflexivity|].
  split; [now apply map_result_length in Hflat | reflexivity].
Qed.

Lemma assemble_detail_network network membersArr res :
  assemble_detail E network membersArr = inr res ->
  get res "network" =
  VObj (detail_network (get (IPv4gen_null E) "cidrOptions") (get network "id")
          (rest_props ["id"; "config"] network) (get network "config")).
Proof.
  unfold assemble_detail.
  destruct (nullish (IPv4gen_null E)); [discriminate|].
  destruct (nullish network); [discriminate|].
  destruct (flattenCentralMembers (VArr membersArr)) as [e|flat]; [discriminate|].
  destruct (iterate flat); [discriminate|].
  now intros [= <-].
Qed.

(** C6: given the list of N members and the network record, the Central
    aggregation issues exactly one member-detail request per member, N in
    all and whatever their answers, and joins them as a unit: if any of the
    N requests fails the whole call throws an [APIError] whose cause is one
    of the rejections, and returns neither a member list nor a partial
    aggregate; a result is returned only when all N were answered, and then
    its member list has the N flattened details. *)
Theorem central_detail_all_or_nothing (nwid : string) (isCentral : bool)
    (w w0 w1 w2 : world) (o : GetOptionsResponse) (ms : list value) (network : value) :
  getOptions E isCentral w = (inr o, w0) ->
  network_members E nwid isCentral w0 = (inr (VArr ms), w1) ->
  getData E (network_addr E o nwid isCentral) (headers o) w1 = (inr network, w2) ->
  let addr := network_addr E o nwid isCentral in
  let rqs := central_detail_requests addr (headers o) ms in
  let ans := answers E (requests w2) rqs in
  exists r,
    central_network_detail E nwid isCentral w = (r, sent_all w2 rqs) /\
    length rqs = length ms /\
    (forall e, In (inl e) ans ->
       exists cause,
         r = inl (APIError (central_detail_message isCentral) (Some cause)) /\
         In cause (rejections (settle_details addr ms ans))) /\
    (forall res, r = inr res ->
       Forall fulfils ans /\
       exists flat,
         flattenCentralMembers (VArr (map body_of ans)) = inr (VArr flat) /\
         length flat = length ms /\
         get res "members" = VArr flat).
Proof.
  intros Ho Hm Hn addr rqs ans.
  assert (Hlen : length ms = length ans).
  { unfold ans, rqs, central_detail_requests. now rewrite answers_length, length_map. }
  rewrite (central_network_detail_array nwid isCentral w w0 w1 w2 o ms network Ho Hm Hn).
  cbv zeta. fold addr. fold rqs. fold ans.
  eexists. split; [reflexivity|].
  split; [unfold rqs, central_detail_requests; apply length_map|].
  destruct (rejections (settle_details addr ms ans)) as [|e0 es] eqn:Hrej.
  - (* every request was answered *)
    pose proof (settle_details_no_rejection addr ms ans Hlen Hrej) as Hall.
    destruct (settle_details_fulfilled addr ms ans Hlen Hall) as [_ Hful].
    unfold Promise_all. rewrite Hrej, Hful.
    split.
    + intros e Hin. exfalso.
      apply (settle_details_rejected addr ms ans e Hlen Hin). exact Hrej.
    + intros res Hres. split; [exact Hall|].
      destruct (assemble_detail E network (map body_of ans)) as [e|res'] eqn:Ha;
        [discriminate Hres|].
      injection Hres as ->.
      destruct (assemble_detail_members _ _ _ Ha) as (flat & Hf & Hl & Hg).
      exists flat. split; [exact Hf|]. split; [|exact Hg].
      rewrite Hl, length_map. now symmetry.
  - (* some request failed *)
    destruct (Promise_all_rejects (settle_details addr ms ans)) as (cause & Hp & Hin);
      [rewrite Hrej; discriminate|].
    rewrite Hp. split.
    + intros e _. exists cause. split; [reflexivity|]. now rewrite <- Hrej.
    + intros res Hres. discriminate Hres.
Qed.

End CentralAggregator.

(** C6 at the Central service with two members of which the second cannot
    be fetched: both detail requests are issued and the call throws. *)
Lemma central_detail_second_fails :
  exists cause,
    central_network_detail (central_env plain_network (Responded unavailable)) "n1" true
      no_requests =
    (inl (APIError (central_detail_message true) (Some cause)),
     sent_all no_requests
       (map (fun url => get_request url central_headers)
          ["https://api.zerotier.com/api/v1/network/n1/member";
           "https://api.zerotier.com/api/v1/network/n1";
           "https://api.zerotier.com/api/v1/network/n1/member/aaaaaaaaaa";
           "https://api.zerotier.com/api/v1/network/n1/member/bbbbbbbbbb"])).
Proof.
  set (E := central_env plain_network (Responded unavailable)).
  pose (w1 := sent no_requests
                (get_request "https://api.zerotier.com/api/v1/network/n1/member"
                   central_headers)).
  pose (w2 := sent w1 (get_request "https://api.zerotier.com/api/v1/network/n1"
                         central_headers)).
  destruct (central_detail_all_or_nothing E "n1" true no_requests no_requests w1 w2
              central_options
              [listed_member "aaaaaaaaaa"; listed_member "bbbbbbbbbb"] plain_network
              eq_refl eq_refl eq_refl) as (r & Hrun & _ & Hfail & _).
  destruct (Hfail (status_error unavailable)) as (cause & Hr & _).
  - right. left. reflexivity.
  - exists cause. rewrite Hr in Hrun. exact Hrun.
Defined.

Section CentralNetwork.

Variable E : Env.

Lemma central_network_detail_success nwid isCentral w w0 w1 w2 o members network res w' :
  getOptions E isCentral w = (inr o, w0) ->
  network_members E nwid isCentral w0 = (inr members, w1) ->
  getData E (network_addr E o nwid isCentral) (headers o) w1 = (inr network, w2) ->
  central_network_detail E nwid isCentral w = (inr res, w') ->
  exists membersArr, assemble_detail E network membersArr = inr res.
Proof.
  intros Ho Hm Hn.
  rewrite (central_network_detail_run E nwid isCentral w w0 w1 w2 o members network Ho Hm Hn).
  unfold try_catch, bind, lift, throw.
  destruct (member_requests _ _ _ _) as [e|promises]; [discriminate|].
  destruct (start_all promises w2) as [[e|settled] w3]; [discriminate|].
  destruct (Promise_all E settled) as [e|membersArr]; [discriminate|].
  destruct (assemble_detail E network membersArr) as [e|res'] eqn:Ha; [discriminate|].
  intros [= <- _]. now exists membersArr.
Qed.

Lemma detail_network_lookup cidrOptions networkId restData networkConfig k :
  NoDup (keys restData) -> NoDup (keys (own_props networkConfig)) ->
  lookup k (detail_network cidrOptions networkId restData networkConfig) =
  match lookup k (own_props networkConfig) with
  | Some x => Some x
  | None =>
      match lookup k restData with
      | Some x => Some x
      | None => if String.eqb k "nwid" then Some networkId
                else if String.eqb k "cidr" then Some cidrOptions else None
      end
  end.
Proof.
  intros Hr Hc. unfold detail_network, spread.
  rewrite assign_lookup by exact Hc.
  simpl own_props. rewrite assign_lookup by exact Hr.
  rewrite !obj_set_lookup. reflexivity.
Qed.

End CentralNetwork.

(** C7, counterexample: the fetched record carries a [cidr] in its
    [config]; the returned network has that [cidr], not the candidates. *)
Lemma central_detail_cidr_not_overlaid :
  exists res w',
    central_network_detail
      (central_env network_with_cidr (ok (detailed_member "bbbbbbbbbb"))) "n1" true
      no_requests = (inr res, w') /\
    get (get res "network") "cidr" <> get candidates "cidrOptions".
Proof.
  eexists. eexists. split; [vm_compute; reflexivity|].
  vm_compute. discriminate.
Qed.

(** C7, as amended: in the network that [central_network_detail] returns,
    [cidr] is written first and the record's top-level fields and [config]
    are spread over it: the returned [cidr] is the candidate list exactly
    when neither carries a [cidr] key; otherwise it is the record's own,
    that of [config] before that of the top level. *)
Theorem central_detail_cidr_default (E : Env) (nwid : string) (isCentral : bool)
    (w w0 w1 w2 w' : world) (o : GetOptionsResponse) (members res : value)
    (record : props) :
  getOptions E isCentral w = (inr o, w0) ->
  network_members E nwid isCentral w0 = (inr members, w1) ->
  getData E (network_addr E o nwid isCentral) (headers o) w1 = (inr (VObj record), w2) ->
  central_network_detail E nwid isCentral w = (inr res, w') ->
  obj_wf record -> obj_wf (own_props (get (VObj record) "config")) ->
  lookup "cidr" (own_props (get res "network")) =
  Some match lookup "cidr" (own_props (get (VObj record) "config")) with
       | Some own => own
       | None =>
           match lookup "cidr" (rest_props ["id"; "config"] (VObj record)) with
           | Some own => own
           | None => get (IPv4gen_null E) "cidrOptions"
           end
       end.
Proof.
  intros Ho Hm Hn Hrun Hwf Hwfc.
  destruct (central_network_detail_success E nwid isCentral w w0 w1 w2 o members
              (VObj record) res w' Ho Hm Hn Hrun) as (membersArr & Ha).
  rewrite (assemble_detail_network E _ _ _ Ha). simpl own_props at 1.
  rewrite detail_network_lookup;
    [| apply rest_props_NoDup; exact Hwf | exact Hwfc].
  destruct (lookup "cidr" (own_props _)); [reflexivity|].
  destruct (lookup "cidr" (rest_props _ _)); reflexivity.
Qed.

(** The amended C7 at a record without [cidr]: the candidates are
    returned. *)
Lemma central_detail_cidr_default_plain :
  exists res w',
    central_network_detail (central_env plain_network (ok (detailed_member "bbbbbbbbbb")))
      "n1" true no_requests = (inr res, w') /\
    lookup "cidr" (own_props (get res "network")) = Some (VArr [VStr "10.121.15.0/24"]).
Proof.
  set (E := central_env plain_network (ok (detailed_member "bbbbbbbbbb"))).
  destruct (central_network_detail E "n1" true no_requests) as [[e|res] w'] eqn:Hrun;
    [vm_compute in Hrun; discriminate Hrun|].
  exists res, w'. split; [reflexivity|].
  refine (central_detail_cidr_default E "n1" true no_requests no_requests
            (sent no_requests
               (get_request "https://api.zerotier.com/api/v1/network/n1/member"
                  central_headers))
            _ w' central_options
            (VArr [listed_member "aaaaaaaaaa"; listed_member "bbbbbbbbbb"]) res
            [("id", VStr "8056c2e21c000001");
             ("config", VObj [("name", VStr "lab"); ("private", VBool true)]);
             ("description", VStr "created with ztnet")]
            eq_refl eq_refl eq_refl Hrun _ _).
  - unfold obj_wf. simpl. repeat constructor; simpl; intuition discriminate.
  - unfold obj_wf. simpl. repeat constructor; simpl; intuition discriminate.
Defined.

(** C2, counterexample: [name] is both in [config] and at the top level;
    [flattenNetwork] returns the top-level value, not that of [config]. *)
Lemma flatten_network_top_level_wins :
  ~ config_wins flattenNetwork colliding_network.
Proof.
  intros H.
  destruct (H "name" (VStr "from-config") eq_refl) as (flat & Hf & Hl).
  - simpl. tauto.
  - vm_compute in Hf. injection Hf as <-. vm_compute in Hl. discriminate Hl.
Qed.

(** C2, as amended: for a well-formed record whose [config] and remaining
    top-level fields share a key, both single-record flatteners return the
    value of the remaining top-level fields (they are spread last), whereas
    the network merged by [central_network_detail] has the value of
    [config] (there [config] is spread last). *)
Theorem collision_precedence (record : props) :
  obj_wf record -> obj_wf (own_props (get (VObj record) "config")) ->
  let config := own_props (get (VObj record) "config") in
  let rest := rest_props ["id"; "config"] (VObj record) in
  (forall k v, lookup k rest = Some v ->
     exists fm fn,
       flattenCentralMember (VObj record) = inr (VObj fm) /\
       flattenNetwork (VObj record) = inr (VObj fn) /\
       lookup k fm = Some v /\ lookup k fn = Some v) /\
  (forall E nwid isCentral w w0 w1 w2 w' o members res,
     getOptions E isCentral w = (inr o, w0) ->
     network_members E nwid isCentral w0 = (inr members, w1) ->
     getData E (network_addr E o nwid isCentral) (headers o) w1 = (inr (VObj record), w2) ->
     central_network_detail E nwid isCentral w = (inr res, w') ->
     forall k v, lookup k config = Some v ->
       lookup k (own_props (get res "network")) = Some v).
Proof.
  intros Hwf Hwfc config rest.
  assert (Hrest : NoDup (keys rest)) by (apply rest_props_NoDup; exact Hwf).
  split.
  - intros k v Hk. eexists. eexists.
    split; [apply flattenCentralMember_object|].
    split; [apply flattenNetwork_object|].
    split; apply flat_literal_rest_wins; assumption.
  - intros E nwid isCentral w w0 w1 w2 w' o members res Ho Hm Hn Hrun k v Hk.
    destruct (central_network_detail_success E nwid isCentral w w0 w1 w2 o members
                (VObj record) res w' Ho Hm Hn Hrun) as (membersArr & Ha).
    rewrite (assemble_detail_network E _ _ _ Ha). simpl own_props at 1.
    rewrite detail_network_lookup by assumption.
    fold config. now rewrite Hk.
Qed.

(** The amended C2 at the colliding record: flattened, [name] has the
    top-level value; merged by [central_network_detail], it has that of
    [config]. *)
Lemma collision_precedence_sample :
  (exists fn,
     flattenNetwork colliding_network = inr (VObj fn) /\
     lookup "name" fn = Some (VStr "from-top-level")) /\
  (exists res w',
     central_network_detail
       (central_env colliding_network (ok (detailed_member "bbbbbbbbbb"))) "n1" true
       no_requests = (inr res, w') /\
     lookup "name" (own_props (get res "network")) = Some (VStr "from-config")).
Proof.
  assert (Hwf : obj_wf [("id", VStr "8056c2e21c000001");
                        ("config", VObj [("name", VStr "from-config");
                                         ("private", VBool true)]);
                        ("name", VStr "from-top-level")]).
  { unfold obj_wf. simpl. repeat constructor; simpl; intuition discriminate. }
  assert (Hwfc : obj_wf [("name", VStr "from-config"); ("private", VBool true)]).
  { unfold obj_wf. simpl. repeat constructor; simpl; intuition discriminate. }
  destruct (collision_precedence _ Hwf Hwfc) as [Hflat Hmerge].
  split.
  - destruct (Hflat "name" (VStr "from-top-level") eq_refl)
      as (fm & fn & _ & Hn & _ & Hl).
    exists fn. split; [exact Hn | exact Hl].
  - set (E := central_env colliding_network (ok (detailed_member "bbbbbbbbbb"))).
    destruct (central_network_detail E "n1" true no_requests) as [[e|res] w'] eqn:Hrun;
      [vm_compute in Hrun; discriminate Hrun|].
    exists res, w'. split; [reflexivity|].
    exact (Hmerge E "n1" true no_requests no_requests
             (sent no_requests
                (get_request "https://api.zerotier.com/api/v1/network/n1/member"
                   central_headers))
             (sent (sent no_requests
                      (get_request "https://api.zerotier.com/api/v1/network/n1/member"
                         central_headers))
                (get_request "https://api.zerotier.com/api/v1/network/n1" central_headers))
             w' central_options
             (VArr [listed_member "aaaaaaaaaa"; listed_member "bbbbbbbbbb"]) res
             eq_refl eq_refl eq_refl Hrun "name" (VStr "from-config") eq_refl).
Defined.

(** ** Sequence flatteners *)

(** C3, a defect of the code: [flattenCentralMembers] answers [null] and
    [undefined] by the empty sequence, and both sequence flatteners map the
    empty sequence to itself, but [flattenNetworks] has no such guard and
    throws a [TypeError] on [null] and on [undefined].  Through
    [get_controller_networks], a Central answer with an empty body thus makes
    the listing fail. *)
Theorem flattenNetworks_null_throws :
  flattenCentralMembers VNull = inr (VArr []) /\
  flattenCentralMembers VUndef = inr (VArr []) /\
  flattenCentralMembers (VArr []) = inr (VArr []) /\
  flattenNetworks (VArr []) = inr (VArr []) /\
  (exists message, flattenNetworks VNull = inl (TypeError message)) /\
  (exists message, flattenNetworks VUndef = inl (TypeError message)) /\
  fst (get_controller_networks (constant_env (ok VNull)) true no_requests) =
  inl (APIError "[CENTRAL] An error occurred while getting get_controller_networks" None).
Proof.
  repeat split; try reflexivity; eexists; reflexivity.
Qed.

(** ** Creating a network *)

Lemma create_payload_wf name ipAssignment : obj_wf (create_payload name ipAssignment).
Proof.
  unfold create_payload, spread, obj_wf.
  apply assign_NoDup. apply obj_set_NoDup. apply obj_set_NoDup. constructor.
Qed.

Lemma create_payload_lookup name ipAssignment k :
  obj_wf (own_props ipAssignment) ->
  lookup k (create_payload name ipAssignment) =
  match lookup k (own_props ipAssignment) with
  | Some x => Some x
  | None => if String.eqb k "private" then Some (VBool true)
            else if String.eqb k "name" then Some (VStr name) else None
  end.
Proof.
  intros Hwf. unfold create_payload, spread.
  rewrite assign_lookup by exact Hwf. now rewrite !obj_set_lookup.
Qed.

Lemma spread_copy_lookup o k : obj_wf o -> lookup k (spread [] (VObj o)) = lookup k o.
Proof.
  intros Hwf. unfold spread. simpl own_props. rewrite assign_lookup by exact Hwf.
  now destruct (lookup k o).
Qed.

Section Create.

Variable E : Env.

Lemma network_create_central_run name ipAssignment w o w0 :
  getOptions E true w = (inr o, w0) ->
  let rq := post_request (to_str (ztCentralApiUrl o) ++ "/network") (headers o)
              (VObj [("config", VObj (spread [] (VObj (create_payload name ipAssignment))));
                     ("description", VStr "created with ztnet")]) in
  network_create E name ipAssignment true w =
  (match settle (server E (requests w0) rq) with
   | inr r =>
       match flattenNetwork (data r) with
       | inr flat => inr flat
       | inl e =>
           inl (APIError "[CENTRAL] An error occurred while getting network_create" (Some e))
       end
   | inl e =>
       inl (APIError "[CENTRAL] An error occurred while getting network_create"
              (Some (postData_error (rq_url rq) e)))
   end, sent w0 rq).
Proof.
  intros Ho rq. unfold network_create. unfold bind at 1. rewrite Ho.
  unfold try_catch, bind. rewrite postData_run.
  change (obj_set "description" (VStr "created with ztnet")
            (obj_set "config" (VObj (spread [] (VObj (create_payload name ipAssignment)))) []))
    with [("config", VObj (spread [] (VObj (create_payload name ipAssignment))));
          ("description", VStr "created with ztnet")].
  fold rq. destruct (settle _) as [e|r]; [reflexivity|].
  unfold lift. destruct (flattenNetwork (data r)); reflexivity.
Qed.

Lemma network_create_local_run name ipAssignment w controllerStatus w1 :
  get_controller_status E false w = (inr controllerStatus, w1) ->
  nullish controllerStatus = false ->
  let rq := post_request
              (LOCAL_ZT_ADDR E ++ "/controller/network/"
                 ++ to_str (get controllerStatus "address") ++ "______")
              (local_headers E) (VObj (create_payload name ipAssignment)) in
  network_create E name ipAssignment false w =
  (match settle (server E (requests w1) rq) with
   | inr r => inr (data r)
   | inl e =>
       inl (APIError "An error occurred while getting network_create"
              (Some (postData_error (rq_url rq) e)))
   end, sent w1 rq).
Proof.
  intros Hs Hn rq. unfold network_create. unfold bind at 1. rewrite getOptions_local.
  unfold try_catch, bind. rewrite Hs, Hn, postData_run.
  cbn [headers]. fold (local_headers E). fold rq.
  destruct (settle _); reflexivity.
Qed.

End Create.

(** C10: the payload of [network_create] is [{ name, private: true,
    ...ipAssignment }] with the caller's address configuration spread
    last.  [private] is the forced [true], and [name] the given name, when
    the address configuration has no key of that name; a [private] or
    [name] key (any key) of the address configuration overrides the forced
    value.  That payload is what is sent: as the [config] of the body posted
    to Central, and as the body posted to the local controller. *)
Theorem create_payload_caller_overrides (name : string) (ipAssignment : value) :
  obj_wf (own_props ipAssignment) ->
  let payload := create_payload name ipAssignment in
  (~ In "private" (keys (own_props ipAssignment)) ->
   lookup "private" payload = Some (VBool true)) /\
  (~ In "name" (keys (own_props ipAssignment)) ->
   lookup "name" payload = Some (VStr name)) /\
  (forall k v, lookup k (own_props ipAssignment) = Some v -> lookup k payload = Some v) /\
  (forall E w o w0,
     getOptions E true w = (inr o, w0) ->
     exists config,
       requests (snd (network_create E name ipAssignment true w)) =
       (requests w0 ++
        [post_request (to_str (ztCentralApiUrl o) ++ "/network") (headers o)
           (VObj [("config", VObj config); ("description", VStr "created with ztnet")])])%list
       /\ forall k, lookup k config = lookup k payload) /\
  (forall E w controllerStatus w1,
     get_controller_status E false w = (inr controllerStatus, w1) ->
     nullish controllerStatus = false ->
     requests (snd (network_create E name ipAssignment false w)) =
     (requests w1 ++
      [post_request
         (LOCAL_ZT_ADDR E ++ "/controller/network/"
            ++ to_str (get controllerStatus "address") ++ "______")
         (local_headers E) (VObj payload)])%list).
Proof.
  intros Hwf payload.
  split; [|split; [|split; [|split]]].
  - intros Hno. unfold payload. rewrite create_payload_lookup by exact Hwf.
    apply lookup_None in Hno. now rewrite Hno.
  - intros Hno. unfold payload. rewrite create_payload_lookup by exact Hwf.
    apply lookup_None in Hno. now rewrite Hno.
  - intros k v Hk. unfold payload. rewrite create_payload_lookup by exact Hwf.
    now rewrite Hk.
  - intros E w o w0 Ho. exists (spread [] (VObj payload)).
    rewrite (network_create_central_run E name ipAssignment w o w0 Ho).
    split; [reflexivity|].
    intros k. apply spread_copy_lookup, create_payload_wf.
  - intros E w controllerStatus w1 Hs Hn.
    rewrite (network_create_local_run E name ipAssignment w controllerStatus w1 Hs Hn).
    reflexivity.
Qed.

(** C10 at an address configuration that sets [private] to [false]: the
    payload is not private. *)
Lemma create_payload_public :
  lookup "private"
    (create_payload "lab" (VObj [("private", VBool false); ("ipPool", VArr [])]))
  = Some (VBool false).
Proof.
  assert (Hwf : obj_wf (own_props (VObj [("private", VBool false); ("ipPool", VArr [])]))).
  { unfold obj_wf. simpl. repeat constructor; simpl; intuition discriminate. }
  exact (proj1 (proj2 (proj2 (create_payload_caller_overrides "lab" _ Hwf)))
           "private" (VBool false) eq_refl).
Defined.



(** ** Error propagation *)




Section Propagation.

Variable E : Env.







Lemma peer_run userZtAddress w :
  let rq := get_request (LOCAL_ZT_ADDR E ++ "/peer/" ++ userZtAddress) (local_headers E) in
  peer E userZtAddress w =
  match settle (server E (requests w) rq) with
  | inr r => (inr (if truthy (data r) then data r else VObj []), sent w rq)
  | inl error =>
      (inr (VArr []), logged (sent w rq) (getData_error (rq_url rq) error))
  end.
Proof.
  intros rq. unfold peer, try_catch. unfold bind at 1. rewrite getOptions_local.
  unfold bind at 1. rewrite getData_run. cbn [headers]. fold (local_headers E). fold rq.
  destruct (settle _) as [error|r]; [reflexivity|].
  destruct (truthy (data r)); reflexivity.
Qed.

End Propagation.

(** * Further properties of the module *)

(** ** Credentials *)

Section Facades.

Variable E : Env.

(** X1: resolving credentials touches neither the network nor the
    console.  For the local controller it cannot fail and yields no base
    address; for Central, whenever it succeeds, the base address is truthy
    (a stored address that is null or empty is replaced by the default one)
    and the only credential header is [Authorization: token <key>], the key
    being printed as it is stored, [null] included. *)
Theorem getOptions_resolution (isCentral : bool) (w : world) :
  (forall r w', getOptions E isCentral w = (r, w') -> w' = w) /\
  (exists o, getOptions E false w = (inr o, w) /\ ztCentralApiUrl o = VNull /\
             headers o = local_headers E) /\
  (forall o w',
     getOptions E true w = (inr o, w') ->
     truthy (ztCentralApiUrl o) = true /\
     exists creds,
       globalOptions E = inr creds /\ nullish creds = false /\
       (truthy (get creds "ztCentralApiUrl") = true ->
        ztCentralApiUrl o = get creds "ztCentralApiUrl") /\
       (truthy (get creds "ztCentralApiUrl") = false ->
        ztCentralApiUrl o = VStr CENTRAL_ZT_ADDR) /\
       headers o =
       VObj [("Authorization", VStr ("token " ++ to_str (get creds "ztCentralApiKey")));
             ("Content-Type", VStr "application/json")]).
Proof.
  split; [|split].
  - intros r w'. apply getOptions_world.
  - eexists. split; [apply getOptions_local|]. split; reflexivity.
  - intros o w'. unfold getOptions, getApiCredentials, bind, lift, ret, throw.
    destruct (globalOptions E) as [e|creds]; [discriminate|].
    destruct (nullish creds) eqn:Hn; [discriminate|].
    intros [= <- _]. cbn [ztCentralApiUrl headers].
    split.
    + destruct (truthy (get creds "ztCentralApiUrl")) eqn:Ht; [exact Ht | reflexivity].
    + exists creds. split; [reflexivity|]. split; [exact Hn|].
      split; [intros ->; reflexivity|]. split; [intros ->; reflexivity | reflexivity].
Qed.

(** X2: when the settings store has no row (or the lookup fails), every
    operation that targets Central throws that very error, not wrapped in
    an [APIError], before any request is issued. *)
Theorem central_without_settings (op : operation) (w : world) :
  backend op = true ->
  (forall creds, globalOptions E = inr creds -> nullish creds = true ->
     exists e, perform E op w = (inl e, w) /\ is_TypeError e) /\
  (forall e, globalOptions E = inl e -> perform E op w = (inl e, w)).
Proof.
  intros Hb.
  assert (Hraw : forall e, getOptions E true w = (inl e, w) -> perform E op w = (inl e, w)).
  { intros e Ho.
    destruct op; cbn [backend] in Hb; try discriminate Hb; subst; cbn [perform];
      unfold ping_api, get_controller_networks, get_controller_status, network_create,
        network_delete, network_members, local_network_detail, central_network_detail,
        network_update, member_delete, member_update, member_details;
      unfold bind at 1; now rewrite Ho. }
  split.
  - intros creds Hc Hn. eexists. split.
    + apply Hraw. unfold getOptions, getApiCredentials, bind, lift, throw.
      rewrite Hc, Hn. reflexivity.
    + now eexists.
  - intros e He. apply Hraw.
    unfold getOptions, getApiCredentials, bind, lift. now rewrite He.
Qed.

(** ** Single-request facades *)

Lemma try_getData_run addr h message w :
  try_catch (getData E addr h) (fun error => throw (APIError message (Some error))) w =
  (get_facade_result message addr (settle (server E (requests w) (get_request addr h))),
   sent w (get_request addr h)).
Proof.
  unfold try_catch. rewrite getData_run. unfold get_facade_result, throw.
  destruct (settle _); reflexivity.
Qed.

Lemma try_postData_run addr h payload message w :
  try_catch (postData E addr h payload)
    (fun error => throw (APIError message (Some error))) w =
  (post_facade_result message addr
     (settle (server E (requests w) (post_request addr h payload))),
   sent w (post_request addr h payload)).
Proof.
  unfold try_catch. rewrite postData_run. unfold post_facade_result, throw.
  destruct (settle _); reflexivity.
Qed.

Lemma get_controller_status_run isCentral w o w0 :
  getOptions E isCentral w = (inr o, w0) ->
  get_controller_status E isCentral w =
  (get_facade_result
     (prefix isCentral ++ "An error occurred while getting get_controller_status")
     (status_addr E o isCentral)
     (settle (server E (requests w0) (get_request (status_addr E o isCentral) (headers o)))),
   sent w0 (get_request (status_addr E o isCentral) (headers o))).
Proof.
  intros Ho. unfold get_controller_status. unfold bind at 1. rewrite Ho.
  fold (status_addr E o isCentral).
  destruct isCentral; apply try_getData_run.
Qed.

Lemma network_members_run nwid isCentral w o w0 :
  getOptions E isCentral w = (inr o, w0) ->
  network_members E nwid isCentral w =
  (get_facade_result
     (prefix isCentral ++ "An error occurred while getting network_members")
     (members_addr E o nwid isCentral)
     (settle (server E (requests w0)
                (get_request (members_addr E o nwid isCentral) (headers o)))),
   sent w0 (get_request (members_addr E o nwid isCentral) (headers o))).
Proof.
  intros Ho. unfold network_members. unfold bind at 1. rewrite Ho.
  fold (members_addr E o nwid isCentral). apply try_getData_run.
Qed.

(** X3: the four facades that are one GET ([get_controller_version],
    [get_controller_status], [network_members], [member_details]) issue
    exactly that request with the resolved headers; on a 2xx answer they
    return the body as it is (a Central member list is not flattened here);
    on a failure they throw an [APIError] with their own message whose cause
    is the error of [getData], so that a 401 surfaces as
    [InvalidCredentials] one level below the operation's error. *)
Theorem get_facades_wrap_once (isCentral : bool) (nwid memberId : string)
    (w w0 : world) (o : GetOptionsResponse) :
  getOptions E isCentral w = (inr o, w0) ->
  (isCentral = false ->
   get_controller_version E w =
   (get_facade_result "An error occurred while getting get_controller_version"
      (LOCAL_ZT_ADDR E ++ "/controller")
      (settle (server E (requests w0)
                 (get_request (LOCAL_ZT_ADDR E ++ "/controller") (headers o)))),
    sent w0 (get_request (LOCAL_ZT_ADDR E ++ "/controller") (headers o)))) /\
  get_controller_status E isCentral w =
  (get_facade_result
     (prefix isCentral ++ "An error occurred while getting get_controller_status")
     (status_addr E o isCentral)
     (settle (server E (requests w0) (get_request (status_addr E o isCentral) (headers o)))),
   sent w0 (get_request (status_addr E o isCentral) (headers o))) /\
  network_members E nwid isCentral w =
  (get_facade_result
     (prefix isCentral ++ "An error occurred while getting network_members")
     (members_addr E o nwid isCentral)
     (settle (server E (requests w0)
                (get_request (members_addr E o nwid isCentral) (headers o)))),
   sent w0 (get_request (members_addr E o nwid isCentral) (headers o))) /\
  member_details E nwid memberId isCentral w =
  (get_facade_result "An error occurred while getting member_detail"
     (member_addr E o nwid memberId isCentral)
     (settle (server E (requests w0)
                (get_request (member_addr E o nwid memberId isCentral) (headers o)))),
   sent w0 (get_request (member_addr E o nwid memberId isCentral) (headers o))) /\
  (forall message addr r,
     validateStatus (status r) = false -> status r = 401%Z ->
     get_facade_result message addr (settle (Responded r)) =
     inl (APIError message (Some (InvalidCredentials (status_error r))))).
Proof.
  intros Ho. split; [|split; [|split; [|split]]].
  - intros ->. unfold get_controller_version. unfold bind at 1. rewrite Ho.
    apply try_getData_run.
  - now apply get_controller_status_run.
  - now apply network_members_run.
  - unfold member_details. unfold bind at 1. rewrite Ho. apply try_getData_run.
  - intros message addr r Hv Hs. rewrite settle_status, Hv.
    unfold get_facade_result, getData_error, status_error. simpl. now rewrite Hs.
Qed.

(** X4: [network_update] and [member_update] issue exactly one POST whose
    body is the given partial fields, unchanged; on a 2xx answer they return
    the body as the backend sent it, without flattening, also for Central;
    on any failure they throw an [APIError] with their own message whose
    cause is the unclassified error of [postData]. *)
Theorem update_facades_pass_through (central : bool) (nwid memberId : string)
    (payload : value) (w w0 : world) (o : GetOptionsResponse) :
  getOptions E central w = (inr o, w0) ->
  network_update E nwid payload central w =
  (post_facade_result (prefix central ++ "An error occurred while getting network_update")
     (network_addr E o nwid central)
     (settle (server E (requests w0)
                (post_request (network_addr E o nwid central) (headers o) payload))),
   sent w0 (post_request (network_addr E o nwid central) (headers o) payload)) /\
  member_update E nwid memberId payload central w =
  (post_facade_result (prefix central ++ "An error occurred while getting member_update")
     (member_addr E o nwid memberId central)
     (settle (server E (requests w0)
                (post_request (member_addr E o nwid memberId central) (headers o) payload))),
   sent w0 (post_request (member_addr E o nwid memberId central) (headers o) payload)).
Proof.
  intros Ho. split.
  - unfold network_update. unfold bind at 1. rewrite Ho.
    fold (network_addr E o nwid central). apply try_postData_run.
  - unfold member_update. unfold bind at 1. rewrite Ho. apply try_postData_run.
Qed.

End Facades.

Section MoreFacades.

Variable E : Env.

Lemma map_result_TypeError (f : value -> result value) l e :
  (forall v e', f v = inl e' -> is_TypeError e') ->
  map_result f l = inl e -> is_TypeError e.
Proof.
  intros Hf. induction l as [|v t IH]; simpl; [discriminate|].
  destruct (f v) as [e'|y] eqn:Hv.
  - intros [= <-]. now apply (Hf v).
  - destruct (map_result f t); [|discriminate]. intros [= <-]. now apply IH.
Qed.

Lemma flattenNetwork_throws_TypeError v e : flattenNetwork v = inl e -> is_TypeError e.
Proof.
  unfold flattenNetwork. destruct (nullish v); [|discriminate].
  intros [= <-]. now eexists.
Qed.

Lemma flattenCentralMember_throws_TypeError v e :
  flattenCentralMember v = inl e -> is_TypeError e.
Proof.
  unfold flattenCentralMember. destruct (nullish v); [|discriminate].
  intros [= <-]. now eexists.
Qed.

Lemma array_map_throws_TypeError (f : value -> result value) who a e :
  (forall v e', f v = inl e' -> is_TypeError e') ->
  array_map f who a = inl e -> is_TypeError e.
Proof.
  intros Hf. unfold array_map.
  destruct a as [| |b|z|s|l|o]; try (intros [= <-]; now eexists).
  destruct (map_result f l) as [e'|l'] eqn:Hm; [|discriminate].
  intros [= <-]. now apply (map_result_TypeError f l).
Qed.

(** X5: whatever makes [get_controller_networks] fail once the credentials
    are resolved (a failed request, or a Central body that cannot be
    flattened), the [APIError] it throws has the operation's message and no
    cause: the error it catches is never an error of axios itself, so the
    cause it passes on is always [undefined]. *)
Theorem get_controller_networks_drops_cause (isCentral : bool) (w w0 w' : world)
    (o : GetOptionsResponse) (e : exn) :
  getOptions E isCentral w = (inr o, w0) ->
  get_controller_networks E isCentral w = (inl e, w') ->
  e = APIError (prefix isCentral ++ "An error occurred while getting get_controller_networks")
        None.
Proof.
  intros Ho. unfold get_controller_networks. unfold bind at 1. rewrite Ho.
  unfold try_catch.
  assert (Hnot : forall body : M value,
             (forall error w1, body w0 = (inl error, w1) -> isAxiosError error = false) ->
             (let (r, w1) := body w0 in
              match r with
              | inr a => (inr a, w1)
              | inl error =>
                  throw (APIError
                           (prefix isCentral
                              ++ "An error occurred while getting get_controller_networks")
                           (if isAxiosError error then Some error else None)) w1
              end) = (inl e, w') ->
             e = APIError
                   (prefix isCentral
                      ++ "An error occurred while getting get_controller_networks") None).
  { intros body Hb. destruct (body w0) as [[error|a] w1] eqn:Hbody; [|discriminate].
    rewrite (Hb error w1 eq_refl). now intros [= <- _]. }
  destruct isCentral; apply Hnot; intros error w1.
  - unfold bind, lift. rewrite getData_run.
    destruct (settle _) as [err|r].
    + intros [= <- _]. destruct (getData_error_cause
                                   (to_str (ztCentralApiUrl o) ++ "/network") err) as [m ->].
      reflexivity.
    + destruct (flattenNetworks (data r)) as [e'|v] eqn:Hf; [|discriminate].
      intros [= <- _].
      destruct (array_map_throws_TypeError flattenNetwork "networks" (data r) e'
                  flattenNetwork_throws_TypeError Hf) as [m ->].
      reflexivity.
  - intros Hg. apply getData_throws_APIError in Hg. destruct Hg as (m & c & ->).
    reflexivity.
Qed.

Lemma network_create_local_full name ipAssignment w :
  let status_rq := get_request (LOCAL_ZT_ADDR E ++ "/status") (local_headers E) in
  network_create E name ipAssignment false w =
  match settle (server E (requests w) status_rq) with
  | inl error =>
      (inl (APIError "An error occurred while getting network_create"
              (Some (APIError "An error occurred while getting get_controller_status"
                       (Some (getData_error (LOCAL_ZT_ADDR E ++ "/status") error))))),
       sent w status_rq)
  | inr r =>
      if nullish (data r)
      then
        (inl (APIError "An error occurred while getting network_create"
                (Some (TypeError
                         "Cannot read properties of a nullish status (reading 'address')"))),
         sent w status_rq)
      else
        let addr := LOCAL_ZT_ADDR E ++ "/controller/network/"
                      ++ to_str (get (data r) "address") ++ "______" in
        let post_rq := post_request addr (local_headers E)
                         (VObj (create_payload name ipAssignment)) in
        (post_facade_result "An error occurred while getting network_create" addr
           (settle (server E (requests (sent w status_rq)) post_rq)),
         sent (sent w status_rq) post_rq)
  end.
Proof.
  intros status_rq.
  pose proof (get_controller_status_run E false w _ w (getOptions_local E w)) as Hs.
  cbn [headers status_addr prefix] in Hs. fold (local_headers E) in Hs.
  fold status_rq in Hs.
  unfold network_create. unfold bind at 1. rewrite getOptions_local.
  unfold try_catch. unfold bind at 1. rewrite Hs.
  destruct (settle (server E (requests w) status_rq)) as [error|r]; [reflexivity|].
  cbn [get_facade_result]. destruct (nullish (data r)); [reflexivity|].
  rewrite postData_run. cbn [headers]. fold (local_headers E).
  cbv zeta. destruct (settle _); reflexivity.
Qed.

(** X6: against the local controller, [network_create] first asks the
    controller for its status and then posts the payload
    [{ name, private: true, ...ipAssignment }] to
    [/controller/network/<address>______], where [<address>] is the
    string that the status gives as the controller's [address]; which
    addresses it requests, in which order, does not depend on the name or
    on the address configuration.  When the status cannot be fetched
    nothing is posted, and the call throws an [APIError]. *)
Theorem network_create_local_target (name name' : string) (ipAssignment ipAssignment' : value)
    (w : world) :
  let status_request := get_request (LOCAL_ZT_ADDR E ++ "/status") (local_headers E) in
  map rq_url (requests (snd (network_create E name ipAssignment false w))) =
  map rq_url (requests (snd (network_create E name' ipAssignment' false w))) /\
  (forall r address,
     settle (server E (requests w) status_request) = inr r ->
     get (data r) "address" = VStr address ->
     requests (snd (network_create E name ipAssignment false w)) =
     (requests w ++
      [status_request;
       post_request
         (LOCAL_ZT_ADDR E ++ "/controller/network/" ++ address ++ "______")
         (local_headers E) (VObj (create_payload name ipAssignment))])%list) /\
  (forall error,
     settle (server E (requests w) status_request) = inl error ->
     exists e,
       network_create E name ipAssignment false w = (inl e, sent w status_request) /\
       is_APIError e).
Proof.
  intros status_request.
  pose proof (network_create_local_full name ipAssignment w) as H1.
  pose proof (network_create_local_full name' ipAssignment' w) as H2.
  cbv zeta in H1, H2. fold status_request in H1, H2.
  split; [|split].
  - rewrite H1, H2.
    destruct (settle _) as [error|r]; [reflexivity|].
    destruct (nullish (data r)); [reflexivity|].
    cbn [snd requests sent]. rewrite !map_app. reflexivity.
  - intros r address Hset Ha. rewrite H1, Hset.
    assert (Hn : nullish (data r) = false).
    { destruct (data r); try reflexivity; discriminate Ha. }
    rewrite Hn, Ha.
    cbn [snd requests sent to_str]. rewrite <- app_assoc. reflexivity.
  - intros error Hset. rewrite H1, Hset.
    eexists. split; [reflexivity|]. now eexists _, _.
Qed.

(** X7: the status that [network_delete] and [member_delete] return is
    always a 2xx code: [network_delete] returns [{status, data: undefined}]
    and [member_delete] the bare status, and neither ever returns for an
    answer outside 2xx. *)
Theorem delete_returns_success_status (nwid memberId : string) (isCentral : bool)
    (w w' : world) (v : value) :
  (network_delete E nwid isCentral w = (inr v, w') ->
   exists s, v = VObj [("status", VNum s); ("data", VUndef)] /\ (200 <= s < 300)%Z) /\
  (member_delete E nwid memberId isCentral w = (inr v, w') ->
   exists s, v = VNum s /\ (200 <= s < 300)%Z).
Proof.
  assert (Hok : forall a r, settle a = inr r -> (200 <= status r < 300)%Z).
  { intros [r0|e0] r; simpl; [|discriminate].
    destruct (validateStatus (status r0)) eqn:Hv; [|discriminate].
    intros [= <-]. unfold validateStatus in Hv.
    apply andb_prop in Hv. destruct Hv as [H1 H2].
    apply Z.leb_le in H1. apply Z.ltb_lt in H2. lia. }
  split.
  - destruct (getOptions E isCentral w) as [[e|o] w0] eqn:Ho.
    + unfold network_delete. unfold bind at 1. rewrite Ho. discriminate.
    + rewrite (network_delete_run E nwid isCentral w o w0 Ho). cbv zeta.
      destruct (settle _) as [error|r] eqn:Hs; [discriminate|].
      intros [= <- _]. exists (status r). split; [reflexivity | now apply (Hok _ _ Hs)].
  - destruct (getOptions E isCentral w) as [[e|o] w0] eqn:Ho.
    + unfold member_delete. unfold bind at 1. rewrite Ho. discriminate.
    + rewrite (member_delete_run E nwid memberId isCentral w o w0 Ho). cbv zeta.
      destruct (settle _) as [error|r] eqn:Hs; [discriminate|].
      intros [= <- _]. exists (status r). split; [reflexivity | now apply (Hok _ _ Hs)].
Qed.

(** X8: [peer] issues exactly one request, always to the local controller,
    and what it returns is never falsy.  A response with a truthy body is
    returned as it is; an empty one ([null], [0], [""], [false]) is
    replaced by [{}]; in both cases the console is left as it was.  A
    failed request is replaced by [[]], and the console gets exactly one
    more line, the error that [getData] threw. *)
Theorem peer_result_truthy (userZtAddress : string) (w : world) :
  let rq := get_request (LOCAL_ZT_ADDR E ++ "/peer/" ++ userZtAddress) (local_headers E) in
  exists v w',
    peer E userZtAddress w = (inr v, w') /\
    truthy v = true /\
    requests w' = (requests w ++ [rq])%list /\
    match settle (server E (requests w) rq) with
    | inr r =>
        v = (if truthy (data r) then data r else VObj []) /\
        console w' = console w
    | inl error =>
        v = VArr [] /\
        console w' = (console w ++ [getData_error (rq_url rq) error])%list
    end.
Proof.
  intros rq.
  pose proof (peer_run E userZtAddress w) as Hrun. cbv zeta in Hrun.
  fold rq in Hrun. rewrite Hrun.
  destruct (settle _) as [error|r].
  - eexists. eexists. split; [reflexivity|]. split; [reflexivity|].
    split; [reflexivity|]. split; reflexivity.
  - eexists. eexists. split; [reflexivity|].
    destruct (truthy (data r)) eqn:Ht.
    + split; [exact Ht|]. split; [reflexivity|]. split; reflexivity.
    + split; [reflexivity|]. split; [reflexivity|]. split; reflexivity.
Qed.

End MoreFacades.

(** ** The flattening layer, further *)

Lemma map_result_nth {A B : Type} (f : A -> result B) l l' i x :
  map_result f l = inr l' -> nth_error l i = Some x ->
  exists y, f x = inr y /\ nth_error l' i = Some y.
Proof.
  revert l' i. induction l as [|a t IH]; intros l' i; simpl; intros Hm Hn.
  - destruct i; discriminate.
  - destruct (f a) as [e|y] eqn:Ha; [discriminate|].
    destruct (map_result f t) as [e|ys] eqn:Ht; [discriminate|].
    injection Hm as <-. destruct i as [|i]; simpl in *.
    + injection Hn as <-. now exists y.
    + now apply (IH ys i).
Qed.

Lemma map_result_total {A B : Type} (f : A -> result B) l :
  Forall (fun x => exists y, f x = inr y) l -> exists l', map_result f l = inr l'.
Proof.
  induction 1 as [|x t [y Hy] _ [ys Hys]]; simpl; [now eexists|].
  rewrite Hy, Hys. now eexists.
Qed.

Lemma map_result_fails {A B : Type} (f : A -> result B) l :
  Exists (fun x => exists e, f x = inl e) l -> exists e, map_result f l = inl e.
Proof.
  induction 1 as [x t [e He]|x t _ [e IH]]; simpl.
  - rewrite He. now eexists.
  - destruct (f x); [now eexists|]. rewrite IH. now eexists.
Qed.

(** X9: on an array none of whose elements is [null] or [undefined], both
    sequence flatteners succeed and return an array of the same length whose
    elements are the flattened elements, in order; a single [null] or
    [undefined] element makes the whole call throw a [TypeError]. *)
Theorem flatten_sequences_elementwise (l : list value) :
  (Forall (fun v => nullish v = false) l ->
   exists lm ln,
     flattenCentralMembers (VArr l) = inr (VArr lm) /\
     flattenNetworks (VArr l) = inr (VArr ln) /\
     length lm = length l /\ length ln = length l /\
     forall i v, nth_error l i = Some v ->
       exists fm fn,
         flattenCentralMember v = inr fm /\ nth_error lm i = Some fm /\
         flattenNetwork v = inr fn /\ nth_error ln i = Some fn) /\
  (Exists (fun v => nullish v = true) l ->
   (exists e, flattenCentralMembers (VArr l) = inl e /\ is_TypeError e) /\
   (exists e, flattenNetworks (VArr l) = inl e /\ is_TypeError e)).
Proof.
  split.
  - intros Hall.
    destruct (map_result_total flattenCentralMember l) as [lm Hm].
    { eapply Forall_impl; [|exact Hall]. intros v Hv. unfold flattenCentralMember.
      rewrite Hv. now eexists. }
    destruct (map_result_total flattenNetwork l) as [ln Hn].
    { eapply Forall_impl; [|exact Hall]. intros v Hv. unfold flattenNetwork.
      rewrite Hv. now eexists. }
    exists lm, ln.
    rewrite flattenCentralMembers_array, Hm.
    unfold flattenNetworks, array_map. rewrite Hn.
    split; [reflexivity|]. split; [reflexivity|].
    split; [now apply map_result_length in Hm|].
    split; [now apply map_result_length in Hn|].
    intros i v Hi.
    destruct (map_result_nth _ _ _ _ _ Hm Hi) as (fm & Hfm & Hlm).
    destruct (map_result_nth _ _ _ _ _ Hn Hi) as (fn & Hfn & Hln).
    now exists fm, fn.
  - intros Hex. split.
    + destruct (map_result_fails flattenCentralMember l) as [e He].
      { eapply Exists_impl; [|exact Hex]. intros v Hv. unfold flattenCentralMember.
        rewrite Hv. now eexists. }
      exists e. rewrite flattenCentralMembers_array, He. split; [reflexivity|].
      now apply (map_result_TypeError flattenCentralMember l e
                   flattenCentralMember_throws_TypeError).
    + destruct (map_result_fails flattenNetwork l) as [e He].
      { eapply Exists_impl; [|exact Hex]. intros v Hv. unfold flattenNetwork.
        rewrite Hv. now eexists. }
      exists e. unfold flattenNetworks, array_map. rewrite He. split; [reflexivity|].
      now apply (map_result_TypeError flattenNetwork l e flattenNetwork_throws_TypeError).
Qed.

Lemma get_absent o k : ~ In k (keys o) -> get (VObj o) k = VUndef.
Proof. intros Hk. unfold get. simpl own_props. apply lookup_None in Hk. now rewrite Hk. Qed.

(** A record that is already flat (well-formed, with its identifier and
    without [id] and [config]) is flattened to a record with the same
    properties. *)
Lemma flat_literal_of_flat idKey o :
  obj_wf o -> In idKey (keys o) -> ~ In "id" (keys o) -> ~ In "config" (keys o) ->
  same_properties
    (flat_literal idKey (get (VObj o) "id") (get (VObj o) "config")
       (rest_props ["id"; "config"] (VObj o)))
    o.
Proof.
  intros Hwf Hid Hno_id Hno_config k.
  assert (Hrest : forall k', lookup k' (rest_props ["id"; "config"] (VObj o)) = lookup k' o).
  { intros k'. rewrite rest_props_lookup. simpl own_props.
    destruct (existsb (String.eqb k') ["id"; "config"]) eqn:Hx; [|reflexivity].
    simpl in Hx. symmetry. apply lookup_None.
    destruct (String.eqb_spec k' "id") as [Heq|_]; [rewrite Heq; exact Hno_id|].
    destruct (String.eqb_spec k' "config") as [Heq|_];
      [rewrite Heq; exact Hno_config | discriminate]. }
  destruct (lookup k o) as [v|] eqn:Hk.
  - apply flat_literal_rest_wins; [now apply rest_props_NoDup|]. now rewrite Hrest.
  - rewrite flat_literal_config.
    + rewrite (get_absent o "config" Hno_config). simpl.
      destruct (String.eqb_spec k idKey) as [->|_]; [|reflexivity].
      apply lookup_None in Hk. contradiction.
    + rewrite (get_absent o "config" Hno_config). constructor.
    + apply lookup_None. now rewrite Hrest.
Qed.

(** X10: flattening twice.  For a record whose [config] has no key [id]
    or [config], flattening the flattened record again changes none of its
    properties (only, possibly, their order): on such records both
    single-record flatteners are idempotent. *)
Theorem flatten_idempotent (record : props) :
  ~ In "id" (keys (own_props (get (VObj record) "config"))) ->
  ~ In "config" (keys (own_props (get (VObj record) "config"))) ->
  exists fm fm' fn fn',
    flattenCentralMember (VObj record) = inr (VObj fm) /\
    flattenCentralMember (VObj fm) = inr (VObj fm') /\ same_properties fm' fm /\
    flattenNetwork (VObj record) = inr (VObj fn) /\
    flattenNetwork (VObj fn) = inr (VObj fn') /\ same_properties fn' fn.
Proof.
  intros Hid Hconfig.
  assert (Hclean : forall idKey k, idKey <> "id" -> idKey <> "config" ->
            k = "id" \/ k = "config" ->
            ~ In k (keys (flat_literal idKey (get (VObj record) "id")
                            (get (VObj record) "config")
                            (rest_props ["id"; "config"] (VObj record))))).
  { intros idKey k Hn1 Hn2 Hk. rewrite flat_literal_keys. intros [Heq|[Hin|Hin]].
    - destruct Hk as [-> | ->]; congruence.
    - destruct Hk as [-> | ->]; contradiction.
    - now apply (rest_not_id_config (VObj record) k Hk). }
  eexists. eexists. eexists. eexists.
  split; [apply flattenCentralMember_object|].
  split; [apply flattenCentralMember_object|].
  split.
  { apply flat_literal_of_flat;
      [ apply flat_literal_wf | apply flat_literal_keys; now left
      | apply Hclean; [discriminate | discriminate | now left]
      | apply Hclean; [discriminate | discriminate | now right] ]. }
  split; [apply flattenNetwork_object|].
  split; [apply flattenNetwork_object|].
  apply flat_literal_of_flat;
    [ apply flat_literal_wf | apply flat_literal_keys; now left
    | apply Hclean; [discriminate | discriminate | now left]
    | apply Hclean; [discriminate | discriminate | now right] ].
Qed.

(** ** The detail aggregator, further *)

Section EarlyFailure.

Variable E : Env.

(** X11: neither aggregation issues a member-detail request before it has
    both the member list and the network record.  When the member list
    cannot be fetched, that request is the only one issued; when the list
    is there but the network record cannot be fetched, exactly these two
    requests are issued; in both cases the call throws its [APIError]. *)
Theorem detail_aborts_before_members (nwid : string) (isCentral : bool) (w w0 : world)
    (o : GetOptionsResponse) :
  getOptions E isCentral w = (inr o, w0) ->
  let local_list :=
    get_request (LOCAL_ZT_ADDR E ++ "/controller/network/" ++ nwid ++ "/member")
      (local_headers E) in
  let local_network :=
    get_request (LOCAL_ZT_ADDR E ++ "/controller/network/" ++ nwid) (headers o) in
  let central_list := get_request (members_addr E o nwid isCentral) (headers o) in
  let central_network := get_request (network_addr E o nwid isCentral) (headers o) in
  (forall error,
     settle (server E (requests w0) local_list) = inl error ->
     exists cause,
       local_network_detail E nwid isCentral w =
       (inl (APIError local_detail_message (Some cause)), sent w0 local_list)) /\
  (forall r error,
     settle (server E (requests w0) local_list) = inr r ->
     settle (server E (requests w0 ++ [local_list])%list local_network) = inl error ->
     exists cause,
       local_network_detail E nwid isCentral w =
       (inl (APIError local_detail_message (Some cause)),
        sent (sent w0 local_list) local_network)) /\
  (forall error,
     settle (server E (requests w0) central_list) = inl error ->
     exists cause,
       central_network_detail E nwid isCentral w =
       (inl (APIError (central_detail_message isCentral) (Some cause)),
        sent w0 central_list)) /\
  (forall r error,
     settle (server E (requests w0) central_list) = inr r ->
     settle (server E (requests w0 ++ [central_list])%list central_network) = inl error ->
     exists cause,
       central_network_detail E nwid isCentral w =
       (inl (APIError (central_detail_message isCentral) (Some cause)),
        sent (sent w0 central_list) central_network)).
Proof.
  intros Ho local_list local_network central_list central_network.
  pose proof (getOptions_world E _ _ _ _ Ho) as Hw. subst w0.
  pose proof (network_members_local_run E nwid w) as Hl. cbv zeta in Hl.
  fold local_list in Hl.
  pose proof (network_members_run E nwid isCentral w o w Ho) as Hc.
  fold central_list in Hc.
  split; [|split; [|split]].
  - intros error He. rewrite He in Hl.
    unfold local_network_detail. unfold bind at 1. rewrite Ho.
    rewrite (try_catch_bind_throws _ _ _ _ _ _ Hl). unfold throw.
    eexists. reflexivity.
  - intros r error Hr He. rewrite Hr in Hl.
    unfold local_network_detail. unfold bind at 1. rewrite Ho.
    rewrite (try_catch_bind_ok _ _ _ _ _ _ Hl).
    assert (Hn : getData E (LOCAL_ZT_ADDR E ++ "/controller/network/" ++ nwid) (headers o)
                   (sent w local_list) =
                 (inl (getData_error (LOCAL_ZT_ADDR E ++ "/controller/network/" ++ nwid) error),
                  sent (sent w local_list) local_network)).
    { rewrite getData_run. fold local_network. cbn [requests sent]. now rewrite He. }
    rewrite (try_catch_bind_throws _ _ _ _ _ _ Hn). unfold throw.
    eexists. reflexivity.
  - intros error He. rewrite He in Hc.
    unfold central_network_detail. unfold bind at 1. rewrite Ho.
    rewrite (try_catch_bind_throws _ _ _ _ _ _ Hc). unfold throw.
    eexists. reflexivity.
  - intros r error Hr He. rewrite Hr in Hc.
    unfold central_network_detail. unfold bind at 1. rewrite Ho.
    fold (network_addr E o nwid isCentral).
    rewrite (try_catch_bind_ok _ _ _ _ _ _ Hc).
    assert (Hn : getData E (network_addr E o nwid isCentral) (headers o)
                   (sent w central_list) =
                 (inl (getData_error (network_addr E o nwid isCentral) error),
                  sent (sent w central_list) central_network)).
    { rewrite getData_run. fold central_network. cbn [requests sent]. now rewrite He. }
    rewrite (try_catch_bind_throws _ _ _ _ _ _ Hn). unfold throw.
    eexists. reflexivity.
Qed.

(** X12: a member list that is [null] (or [undefined]) makes both
    aggregations fail: the network record is still fetched, then the Local
    one fails on [Object.entries] and the Central one on the join, each with
    an [APIError] whose cause is a [TypeError]; no member-detail request is
    issued.  (The guard of [flattenCentralMembers] against [null] is never
    reached.) *)
Theorem detail_rejects_null_member_list (nwid : string) (isCentral : bool)
    (w w0 w1 w2 : world) (o : GetOptionsResponse) (members network : value) :
  getOptions E isCentral w = (inr o, w0) ->
  nullish members = true ->
  (network_members E nwid false w0 = (inr members, w1) ->
   getData E (LOCAL_ZT_ADDR E ++ "/controller/network/" ++ nwid) (headers o) w1
     = (inr network, w2) ->
   exists cause,
     local_network_detail E nwid isCentral w =
     (inl (APIError local_detail_message (Some cause)), w2) /\ is_TypeError cause) /\
  (network_members E nwid isCentral w0 = (inr members, w1) ->
   getData E (network_addr E o nwid isCentral) (headers o) w1 = (inr network, w2) ->
   exists cause,
     central_network_detail E nwid isCentral w =
     (inl (APIError (central_detail_message isCentral) (Some cause)), w2) /\
     is_TypeError cause).
Proof.
  intros Ho Hnull. split.
  - intros Hm Hn. unfold local_network_detail. unfold bind at 1. rewrite Ho.
    rewrite (try_catch_bind_ok _ _ _ _ _ _ Hm).
    rewrite (try_catch_bind_ok _ _ _ _ _ _ Hn).
    unfold try_catch, bind, lift, throw, Object_entries. rewrite Hnull.
    eexists. split; [reflexivity | now eexists].
  - intros Hm Hn.
    rewrite (central_network_detail_run E nwid isCentral w w0 w1 w2 o members network
               Ho Hm Hn).
    unfold try_catch, bind, lift, throw.
    destruct members; try discriminate Hnull; cbn [member_requests];
      (eexists; split; [reflexivity | now eexists]).
Qed.

End EarlyFailure.

(** ** The admin router *)

Section ControllerStats.

Variable E : Env.

Lemma get_controller_networks_local_run w :
  get_controller_networks E false w =
  (match settle (server E (requests w) (stats_list_request E)) with
   | inr r => inr (data r)
   | inl error =>
       inl (APIError "An error occurred while getting get_controller_networks" None)
   end, sent w (stats_list_request E)).
Proof.
  unfold get_controller_networks. unfold bind at 1. rewrite getOptions_local.
  unfold try_catch. rewrite getData_run. cbn [headers]. fold (local_headers E).
  fold (stats_list_request E).
  destruct (settle _) as [error|r]; [|reflexivity].
  destruct (getData_error_cause (LOCAL_ZT_ADDR E ++ "/controller/network") error) as [m ->].
  reflexivity.
Qed.

Lemma stats_members_run network w :
  network_members E (to_str network) false w =
  (match settle (server E (requests w) (stats_member_request E network)) with
   | inr r => inr (data r)
   | inl error =>
       inl (APIError "An error occurred while getting network_members"
              (Some (getData_error (rq_url (stats_member_request E network)) error)))
   end, sent w (stats_member_request E network)).
Proof. apply network_members_local_run. Qed.

Lemma stats_status_run w :
  get_controller_status E false w =
  (match settle (server E (requests w) (stats_status_request E)) with
   | inr r => inr (data r)
   | inl error =>
       inl (APIError "An error occurred while getting get_controller_status"
              (Some (getData_error (LOCAL_ZT_ADDR E ++ "/status") error)))
   end, sent w (stats_status_request E)).
Proof.
  rewrite (get_controller_status_run E false w _ w (getOptions_local E w)).
  cbn [headers status_addr prefix]. fold (local_headers E). fold (stats_status_request E).
  destruct (settle _); reflexivity.
Qed.

Lemma count_members_app pre post total w :
  count_members E (pre ++ post)%list total w =
  match count_members E pre total w with
  | (inr total', w') => count_members E post total' w'
  | (inl e, w') => (inl e, w')
  end.
Proof.
  revert total w. induction pre as [|network t IH]; intros total w; [reflexivity|].
  cbn [app count_members]. unfold bind.
  destruct (network_members E (to_str network) false w) as [[e|members] w1]; [reflexivity|].
  destruct (lift (Object_keys members) w1) as [[e|ks] w2]; [reflexivity|].
  apply IH.
Qed.

Lemma count_members_ok networks total w :
  Forall listed (answers E (requests w) (map (stats_member_request E) networks)) ->
  count_members E networks total w =
  (inr (total + fold_right Z.add 0%Z
                  (map key_count
                     (answers E (requests w) (map (stats_member_request E) networks))))%Z,
   sent_all w (map (stats_member_request E) networks)).
Proof.
  revert total w. induction networks as [|network t IH]; intros total w Hall.
  - cbn. now rewrite Z.add_0_r.
  - cbn [map answers] in Hall |- *.
    inversion Hall as [|a l [[r Hr] Hnn] Ht]; subst.
    cbn [count_members]. unfold bind at 1. rewrite stats_members_run, Hr.
    rewrite Hr in Hnn. cbn [body_of] in Hnn.
    unfold bind at 1. unfold lift, Object_keys. rewrite Hnn.
    change (requests w ++ [stats_member_request E network])%list
      with (requests (sent w (stats_member_request E network))) in Ht |- *.
    rewrite IH by exact Ht.
    cbn [fold_right map sent_all fold_left]. unfold key_count at 2. cbn [body_of].
    f_equal. f_equal. lia.
Qed.

Lemma count_members_stops pre network post total w error :
  Forall listed (answers E (requests w) (map (stats_member_request E) pre)) ->
  settle (server E (requests w ++ map (stats_member_request E) pre)%list
            (stats_member_request E network)) = inl error ->
  count_members E (pre ++ network :: post)%list total w =
  (inl (APIError "An error occurred while getting network_members"
          (Some (getData_error (rq_url (stats_member_request E network)) error))),
   sent_all w (map (stats_member_request E) (pre ++ [network]))).
Proof.
  intros Hpre Hfail.
  rewrite count_members_app, count_members_ok by exact Hpre.
  cbn [count_members]. unfold bind at 1.
  rewrite stats_members_run, requests_sent_all, Hfail.
  rewrite map_app, sent_all_app. reflexivity.
Qed.

(** X13: [getControllerStats] always works on the local controller.  When
    the controller lists N networks and every request is answered, it
    issues 1 + N + 1 requests, all of them GET with the local token (the
    list of networks, the member list of each network in the order of the
    list, then the status) and returns N as [networkCount], the sum of the
    numbers of keys of the N member lists as [totalMembers], and the status
    as the controller sent it. *)
Theorem controller_stats_counts (w : world) (r0 rs : response) (networks : list value) :
  let member_rqs := map (stats_member_request E) networks in
  let ans := answers E (requests w ++ [stats_list_request E])%list member_rqs in
  settle (server E (requests w) (stats_list_request E)) = inr r0 ->
  data r0 = VArr networks ->
  Forall listed ans ->
  settle (server E (requests w ++ stats_list_request E :: member_rqs)%list
            (stats_status_request E)) = inr rs ->
  getControllerStats E w =
  (inr (VObj [("networkCount", VNum (Z.of_nat (length networks)));
              ("totalMembers", VNum (fold_right Z.add 0%Z (map key_count ans)));
              ("controllerStatus", data rs)]),
   sent_all w (stats_list_request E :: member_rqs ++ [stats_status_request E])%list).
Proof.
  intros member_rqs ans Hlist Hdata Hall Hstatus.
  unfold getControllerStats. unfold bind at 1.
  rewrite get_controller_networks_local_run, Hlist, Hdata.
  unfold bind at 1. cbn [lift get_length]. unfold bind at 1. cbn [lift iterate].
  unfold bind at 1.
  rewrite count_members_ok by exact Hall. fold member_rqs. fold ans.
  unfold bind at 1. rewrite stats_status_run.
  rewrite requests_sent_all. cbn [requests sent].
  rewrite <- app_assoc. cbn [app]. rewrite Hstatus.
  unfold ret. cbn [sent_all fold_left]. rewrite Z.add_0_l.
  f_equal. unfold sent_all. rewrite fold_left_app. reflexivity.
Qed.

(** X14: [getControllerStats] has no handler of its own: when the member
    list of some network cannot be fetched, after those before it were, it
    throws the error of [network_members] as it is, issues no further
    request (the status is never asked for) and returns no count; and when
    the list of networks itself cannot be fetched, that request is the only
    one issued. *)
Theorem controller_stats_aborts (w : world) :
  (forall error,
     settle (server E (requests w) (stats_list_request E)) = inl error ->
     getControllerStats E w =
     (inl (APIError "An error occurred while getting get_controller_networks" None),
      sent w (stats_list_request E))) /\
  (forall r0 pre network post error,
     settle (server E (requests w) (stats_list_request E)) = inr r0 ->
     data r0 = VArr (pre ++ network :: post)%list ->
     Forall listed (answers E (requests w ++ [stats_list_request E])%list
                      (map (stats_member_request E) pre)) ->
     settle (server E
               (requests w ++ stats_list_request E :: map (stats_member_request E) pre)%list
               (stats_member_request E network)) = inl error ->
     getControllerStats E w =
     (inl (APIError "An error occurred while getting network_members"
             (Some (getData_error (rq_url (stats_member_request E network)) error))),
      sent_all w (stats_list_request E
                    :: map (stats_member_request E) (pre ++ [network]))%list)).
Proof.
  split.
  - intros error Hlist. unfold getControllerStats. unfold bind at 1.
    rewrite get_controller_networks_local_run, Hlist. reflexivity.
  - intros r0 pre network post error Hlist Hdata Hpre Hfail.
    unfold getControllerStats. unfold bind at 1.
    rewrite get_controller_networks_local_run, Hlist, Hdata.
    unfold bind at 1. cbn [lift get_length]. unfold bind at 1. cbn [lift iterate].
    unfold bind at 1.
    rewrite (count_members_stops pre network post 0%Z (sent w (stats_list_request E)) error).
    + reflexivity.
    + exact Hpre.
    + cbn [requests sent]. rewrite <- app_assoc. exact Hfail.
Qed.

(** X15: [getMailTemplates] reads the settings row and issues no request.
    For one of the two template names it returns the stored template unless
    that is [null] or [undefined] (a missing row included), in which case
    it returns the default; a stored template that is merely falsy, such as
    [""], is returned as it is.  For any other name it returns [{}].  It
    fails only when the lookup itself fails, whereas a missing row makes
    [getOptions] throw. *)
Theorem mail_template_fallback (D : MailDefaults) (template : string) (w : world)
    (row : value) :
  globalOptions E = inr row ->
  let stored := optional_get row template in
  let fallback := if String.eqb template "inviteUserTemplate" then inviteUserTemplate D
                  else forgotPasswordTemplate D in
  (template = "inviteUserTemplate" \/ template = "forgotPasswordTemplate" ->
   (nullish stored = true -> getMailTemplates E D template w = (inr fallback, w)) /\
   (nullish stored = false -> getMailTemplates E D template w = (inr stored, w))) /\
  (template <> "inviteUserTemplate" -> template <> "forgotPasswordTemplate" ->
   getMailTemplates E D template w = (inr (VObj []), w)) /\
  (nullish row = true ->
   exists e, getOptions E true w = (inl e, w) /\ is_TypeError e).
Proof.
  intros Hrow stored fallback.
  unfold getMailTemplates, bind, lift, ret. rewrite Hrow.
  split; [|split].
  - intros [-> | ->]; cbn [String.eqb Ascii.eqb Bool.eqb] in *;
      unfold nullish_coalesce; fold stored; split; intros ->; reflexivity.
  - intros H1 H2.
    destruct (String.eqb_spec template "inviteUserTemplate"); [contradiction|].
    destruct (String.eqb_spec template "forgotPasswordTemplate"); [contradiction|].
    reflexivity.
  - intros Hn. unfold getOptions, getApiCredentials, bind, lift, throw.
    rewrite Hrow, Hn. eexists. split; [reflexivity | now eexists].
Qed.

End ControllerStats.

(** ** The mail template editor *)

Lemma prefix_nil t : String.prefix "" t = true.
Proof. now destruct t. Qed.

Lemma prefix_app p t : String.prefix p (p ++ t) = true.
Proof.
  induction p as [|a p IH]; [apply prefix_nil|].
  change (String a p ++ t) with (String a (p ++ t)). cbn [String.prefix].
  destruct (ascii_dec a a); [exact IH | contradiction].
Qed.

Lemma prefix_newline c t :
  String.prefix newline (String c t) = true <-> c = "010"%char.
Proof.
  unfold newline. cbn [String.prefix].
  destruct (ascii_dec "010"%char c) as [<-|Hne].
  - rewrite prefix_nil. split; intros _; reflexivity.
  - split; [discriminate | intros ->; contradiction].
Qed.

Lemma replace_from_skip pat rep p t :
  replace_from pat rep (String.length p) (p ++ t) = replace_from pat rep 0 t.
Proof. induction p as [|a p IH]; [reflexivity | exact IH]. Qed.

Lemma store_cons c t :
  replace_all newline br (String c t) =
  if String.prefix newline (String c t) then br ++ replace_all newline br t
  else String c (replace_all newline br t).
Proof. reflexivity. Qed.

Lemma show_br t : replace_all br newline (br ++ t) = newline ++ replace_all br newline t.
Proof.
  unfold replace_all.
  change (br ++ t) with (String "<"%char ("br />" ++ t)).
  cbn [replace_from].
  change (String "<"%char ("br />" ++ t)) with (br ++ t). rewrite prefix_app.
  change (String.length br - 1) with (String.length "br />").
  now rewrite replace_from_skip.
Qed.

Lemma show_cons c s :
  String.prefix br (String c s) = false ->
  replace_all br newline (String c s) = String c (replace_all br newline s).
Proof. intros H. unfold replace_all. cbn [replace_from]. now rewrite H. Qed.

(** A prefix without ["<"] survives in the stored text only if it was in
    the input: the stored text differs from the input by ["<br />"] in the
    place of line feeds. *)
Lemma store_prefix p t :
  (forall c, In c (list_ascii_of_string p) -> c <> "<"%char) ->
  String.prefix p (replace_all newline br t) = true -> String.prefix p t = true.
Proof.
  revert t. induction p as [|a p IH]; intros t Hp; [intros _; apply prefix_nil|].
  destruct t as [|d t]; [intros H; exact H|].
  rewrite store_cons.
  destruct (String.prefix newline (String d t)) eqn:Hd.
  - change (br ++ replace_all newline br t)
      with (String "<"%char ("br />" ++ replace_all newline br t)).
    cbn [String.prefix].
    destruct (ascii_dec a "<"%char) as [->|_]; [|discriminate].
    exfalso. apply (Hp "<"%char); [now left | reflexivity].
  - cbn [String.prefix]. destruct (ascii_dec a d); [|discriminate].
    apply IH. intros c Hc. apply Hp. now right.
Qed.

Lemma store_keeps_prefix_br c t :
  String.prefix newline (String c t) = false ->
  String.prefix br (String c (replace_all newline br t)) = true ->
  String.prefix br (String c t) = true.
Proof.
  intros _. unfold br. cbn [String.prefix].
  destruct (ascii_dec "<"%char c); [|discriminate].
  apply (store_prefix "br />").
  intros x Hx. simpl in Hx.
  repeat (destruct Hx as [<-|Hx]; [discriminate|]). destruct Hx.
Qed.

Lemma replace_round_trip s :
  occurs br s = false -> replace_all br newline (replace_all newline br s) = s.
Proof.
  induction s as [|c t IH]; intros Hocc; [reflexivity|].
  cbn [occurs] in Hocc. apply orb_false_iff in Hocc. destruct Hocc as [Hhere Hlater].
  rewrite store_cons.
  destruct (String.prefix newline (String c t)) eqn:Hc.
  - rewrite show_br, IH by exact Hlater.
    apply prefix_newline in Hc. subst c. reflexivity.
  - rewrite show_cons, IH; [reflexivity | exact Hlater |].
    destruct (String.prefix br (String c (replace_all newline br t))) eqn:Hp;
      [|reflexivity].
    rewrite (store_keeps_prefix_br c t Hc Hp) in Hhere. discriminate Hhere.
Qed.

Lemma store_no_newline s : occurs newline (replace_all newline br s) = false.
Proof.
  induction s as [|c t IH]; [reflexivity|].
  rewrite store_cons. destruct (String.prefix newline (String c t)) eqn:Hc.
  - assert (Hskip : forall p s, occurs newline s = false ->
              (forall c, In c (list_ascii_of_string p) -> c <> "010"%char) ->
              occurs newline (p ++ s) = false).
    { intros p s Hs. induction p as [|a p IHp]; intros Hp; [exact Hs|].
      change (String a p ++ s) with (String a (p ++ s)). cbn [occurs].
      rewrite IHp by (intros x Hx; apply Hp; now right).
      rewrite orb_false_r.
      destruct (String.prefix newline (String a (p ++ s))) eqn:Ha; [|reflexivity].
      apply prefix_newline in Ha. exfalso. apply (Hp a); [now left | exact Ha]. }
    apply Hskip; [exact IH|].
    intros x Hx. cbn in Hx.
    repeat (destruct Hx as [<-|Hx]; [discriminate|]). destruct Hx.
  - cbn [occurs]. rewrite IH, orb_false_r.
    destruct (String.prefix newline (String c (replace_all newline br t))) eqn:Hp;
      [|reflexivity].
    apply prefix_newline in Hp. apply (prefix_newline c t) in Hp. congruence.
Qed.

Lemma split_lines_cons s : exists l ls, split_lines s = l :: ls.
Proof.
  destruct s as [|c t]; [now eexists _, _|]. cbn [split_lines].
  destruct (Ascii.eqb c "010"%char); [now eexists _, _|].
  destruct (split_lines t); now eexists _, _.
Qed.

Lemma join_cons sep l l' ls : join sep (l :: l' :: ls) = l ++ sep ++ join sep (l' :: ls).
Proof. reflexivity. Qed.

Lemma join_head sep c l ls : join sep (String c l :: ls) = String c (join sep (l :: ls)).
Proof. destruct ls; reflexivity. Qed.

Lemma prefix_newline_eqb c t : String.prefix newline (String c t) = Ascii.eqb c "010"%char.
Proof.
  destruct (Ascii.eqb_spec c "010"%char) as [->|Hne].
  - now apply prefix_newline.
  - destruct (String.prefix newline (String c t)) eqn:H; [|reflexivity].
    apply prefix_newline in H. contradiction.
Qed.

(** The lines of a text, joined by line feeds, are the text. *)
Lemma join_split_lines s : join newline (split_lines s) = s.
Proof.
  induction s as [|c t IH]; [reflexivity|]. cbn [split_lines].
  destruct (split_lines_cons t) as (l & ls & Ht). rewrite Ht in *.
  destruct (Ascii.eqb_spec c "010"%char) as [->|Hne].
  - rewrite join_cons, IH. reflexivity.
  - rewrite join_head, IH. reflexivity.
Qed.

Lemma split_lines_no_newline s :
  Forall (fun l => occurs newline l = false) (split_lines s).
Proof.
  induction s as [|c t IH]; [repeat constructor|]. cbn [split_lines].
  destruct (split_lines_cons t) as (l & ls & Ht). rewrite Ht in *.
  inversion IH as [|? ? Hl Hls]; subst.
  destruct (Ascii.eqb_spec c "010"%char) as [->|Hne].
  - constructor; [reflexivity | exact IH].
  - constructor; [|exact Hls]. cbn [occurs]. rewrite Hl, orb_false_r.
    rewrite prefix_newline_eqb. now apply Ascii.eqb_neq.
Qed.

(** Replacing every line feed by ["<br />"] joins the lines of the text by
    ["<br />"]. *)
Lemma store_join s : replace_all newline br s = join br (split_lines s).
Proof.
  induction s as [|c t IH]; [reflexivity|].
  rewrite store_cons, prefix_newline_eqb. cbn [split_lines].
  destruct (split_lines_cons t) as (l & ls & Ht). rewrite Ht in *.
  destruct (Ascii.eqb c "010"%char).
  - rewrite join_cons, IH. reflexivity.
  - rewrite join_head, IH. reflexivity.
Qed.

(** X16: what is typed into a field of a mail template is stored with its
    lines joined by ["<br />"], and the body is shown again as typed.  For
    every previous state of the template, every field name and every input:
    the input is its lines (the pieces between its line feeds, none of
    which contains a line feed) joined by line feeds, and
    [changeTemplateHandler] stores under the field's name those lines
    joined by ["<br />"], a text without line feed, leaving every other
    field of a well-formed template as it was.  The textarea shows the
    stored body with every ["<br />"] replaced by a line feed: when the
    input to the body does not itself contain ["<br />"], the value shown
    after the change is the input. *)
Theorem template_body_round_trip (emailTemplate : value) (name input : string) :
  let lines := split_lines input in
  let next := changeTemplateHandler emailTemplate name input in
  input = join newline lines /\
  Forall (fun l => occurs newline l = false) lines /\
  get next name = VStr (join br lines) /\
  occurs newline (join br lines) = false /\
  (obj_wf (own_props emailTemplate) ->
   forall k, k <> name -> get next k = get emailTemplate k) /\
  (occurs br input = false ->
   textarea_value (changeTemplateHandler emailTemplate "body" input) = inr (VStr input)).
Proof.
  intros lines next. unfold lines, next.
  split; [symmetry; apply join_split_lines|].
  split; [apply split_lines_no_newline|].
  split; [|split; [|split]].
  - unfold changeTemplateHandler, get. cbn [own_props].
    now rewrite obj_set_lookup, String.eqb_refl, store_join.
  - rewrite <- store_join. apply store_no_newline.
  - intros Hwf k Hk. unfold changeTemplateHandler, get. cbn [own_props].
    rewrite obj_set_lookup.
    destruct (String.eqb_spec k name) as [->|_]; [contradiction|].
    unfold spread. rewrite assign_lookup by exact Hwf. cbn [lookup].
    now destruct (lookup k (own_props emailTemplate)).
  - intros Hocc.
    unfold textarea_value, changeTemplateHandler, optional_get. cbn [nullish].
    unfold get. cbn [own_props]. rewrite obj_set_lookup, String.eqb_refl.
    rewrite replace_round_trip by exact Hocc.
    cbn [truthy]. now destruct (String.eqb_spec input "") as [->|_].
Qed.

(** ** Locales *)

(** X17: the two tables of locales agree: every supported locale has a
    language name, no locale is listed twice, and the names are those of the
    supported locales and of [default], no other. *)
Theorem locales_have_names :
  (forall l, In l supportedLocales -> exists name, lookup l languageNames = Some (VStr name)) /\
  NoDup supportedLocales /\ obj_wf languageNames /\
  (forall k, In k (keys languageNames) <-> k = "default" \/ In k supportedLocales).
Proof.
  split; [|split; [|split]].
  - intros l Hl. simpl in Hl.
    repeat (destruct Hl as [<-|Hl]; [eexists; reflexivity|]). destruct Hl.
  - repeat constructor; simpl; intuition discriminate.
  - unfold obj_wf. simpl. repeat constructor; simpl; intuition discriminate.
  - intros k. simpl. intuition.
Qed.

(** ** The further properties at sample environments *)

(** X18: [ping_api], the test of the Central API key, has no handler of
    its own: it issues one GET to [<base>/network] with the Central
    credentials and, unlike the other facades, throws the error of
    [getData] itself, so that an invalid key surfaces directly as
    [InvalidCredentials] ("Invalid API Key"). *)
Theorem ping_api_surfaces_classification (E : Env) (w w0 : world) (o : GetOptionsResponse) :
  getOptions E true w = (inr o, w0) ->
  let rq := get_request (to_str (ztCentralApiUrl o) ++ "/network") (headers o) in
  ping_api E w =
  (match settle (server E (requests w0) rq) with
   | inr r => inr (data r)
   | inl error => inl (getData_error (rq_url rq) error)
   end, sent w0 rq) /\
  (forall r, server E (requests w0) rq = Responded r -> status r = 401%Z ->
     ping_api E w = (inl (InvalidCredentials (status_error r)), sent w0 rq)).
Proof.
  intros Ho rq.
  assert (Hrun : ping_api E w =
                 (match settle (server E (requests w0) rq) with
                  | inr r => inr (data r)
                  | inl error => inl (getData_error (rq_url rq) error)
                  end, sent w0 rq)).
  { unfold ping_api. unfold bind at 1. rewrite Ho. apply getData_run. }
  split; [exact Hrun|].
  intros r Hr Hs.
  assert (Hv : validateStatus (status r) = false) by (now rewrite Hs).
  rewrite Hrun, Hr, settle_status, Hv.
  unfold getData_error, status_error. cbn [response_status status_is].
  now rewrite (proj2 (Z.eqb_eq _ _) Hs).
Qed.

Lemma ping_api_invalid_key :
  ping_api (constant_env (Responded unauthorized)) no_requests =
  (inl (InvalidCredentials (status_error unauthorized)),
   sent no_requests (get_request "https://api.zerotier.com/api/v1/network" central_headers)).
Proof.
  exact (proj2 (ping_api_surfaces_classification (constant_env (Responded unauthorized))
                  no_requests no_requests central_options eq_refl)
           unauthorized eq_refl eq_refl).
Defined.

Lemma central_without_settings_sample :
  exists e, ping_api stats_env no_requests = (inl e, no_requests) /\ is_TypeError e.
Proof.
  exact (proj1 (central_without_settings stats_env Ping_api no_requests eq_refl)
           VNull eq_refl eq_refl).
Defined.

Lemma get_facades_wrap_once_sample :
  get_controller_status (constant_env (Responded unauthorized)) false no_requests =
  (inl (APIError "An error occurred while getting get_controller_status"
          (Some (InvalidCredentials (status_error unauthorized)))),
   sent no_requests
     (get_request "http://127.0.0.1:9993/status"
        (local_headers (constant_env (Responded unauthorized))))).
Proof.
  exact (proj1 (proj2 (get_facades_wrap_once (constant_env (Responded unauthorized))
                         false "n1" "aaaaaaaaaa" no_requests no_requests _
                         (getOptions_local _ no_requests)))).
Defined.

Lemma update_facades_pass_through_sample :
  network_update (central_env plain_network (ok VNull)) "n1"
    (VObj [("name", VStr "renamed")]) true no_requests =
  (inl (APIError "[CENTRAL] An error occurred while getting network_update"
          (Some (postData_error "https://api.zerotier.com/api/v1/network/n1"
                   (status_error not_found)))),
   sent no_requests
     (post_request "https://api.zerotier.com/api/v1/network/n1" central_headers
        (VObj [("name", VStr "renamed")]))).
Proof.
  exact (proj1 (update_facades_pass_through (central_env plain_network (ok VNull))
                  true "n1" "aaaaaaaaaa" (VObj [("name", VStr "renamed")])
                  no_requests no_requests central_options eq_refl)).
Defined.

Lemma get_controller_networks_drops_cause_sample :
  match fst (get_controller_networks (constant_env (Responded unauthorized)) true
               no_requests) with
  | inl e =>
      e = APIError "[CENTRAL] An error occurred while getting get_controller_networks" None
  | inr _ => False
  end.
Proof.
  destruct (get_controller_networks (constant_env (Responded unauthorized)) true no_requests)
    as [[e|v] w'] eqn:Hrun.
  - exact (get_controller_networks_drops_cause (constant_env (Responded unauthorized))
             true no_requests no_requests w' central_options e eq_refl Hrun).
  - vm_compute in Hrun. discriminate Hrun.
Defined.

Lemma flatten_idempotent_sample :
  exists fn fn',
    flattenNetwork plain_network = inr (VObj fn) /\
    flattenNetwork (VObj fn) = inr (VObj fn') /\ same_properties fn' fn.
Proof.
  destruct (flatten_idempotent
              [("id", VStr "8056c2e21c000001");
               ("config", VObj [("name", VStr "lab"); ("private", VBool true)]);
               ("description", VStr "created with ztnet")])
    as (fm & fm' & fn & fn' & _ & _ & _ & H1 & H2 & H3).
  - simpl. intuition discriminate.
  - simpl. intuition discriminate.
  - exists fn, fn'. split; [exact H1|]. split; [exact H2 | exact H3].
Defined.

Lemma detail_aborts_before_members_sample :
  exists cause,
    local_network_detail (constant_env (Failed connection_refused)) "n1" false no_requests =
    (inl (APIError local_detail_message (Some cause)),
     sent no_requests
       (get_request "http://127.0.0.1:9993/controller/network/n1/member"
          (local_headers (constant_env (Failed connection_refused))))).
Proof.
  exact (proj1 (detail_aborts_before_members (constant_env (Failed connection_refused))
                  "n1" false no_requests no_requests _ (getOptions_local _ no_requests))
           connection_refused eq_refl).
Defined.

Lemma detail_rejects_null_member_list_sample :
  exists cause,
    central_network_detail (constant_env (ok VNull)) "n1" true no_requests =
    (inl (APIError (central_detail_message true) (Some cause)),
     sent_all no_requests
       (map (fun url => get_request url central_headers)
          ["https://api.zerotier.com/api/v1/network/n1/member";
           "https://api.zerotier.com/api/v1/network/n1"])) /\
    is_TypeError cause.
Proof.
  exact (proj2 (detail_rejects_null_member_list (constant_env (ok VNull)) "n1" true
                  no_requests no_requests
                  (sent no_requests
                     (get_request "https://api.zerotier.com/api/v1/network/n1/member"
                        central_headers))
                  (sent_all no_requests
                     (map (fun url => get_request url central_headers)
                        ["https://api.zerotier.com/api/v1/network/n1/member";
                         "https://api.zerotier.com/api/v1/network/n1"]))
                  central_options VNull VNull eq_refl eq_refl)
           eq_refl eq_refl).
Defined.

Lemma controller_stats_counts_sample :
  fst (getControllerStats stats_env no_requests) =
  inr (VObj [("networkCount", VNum 2); ("totalMembers", VNum 4);
             ("controllerStatus", VObj [("address", VStr "efcc1b0947")])]).
Proof.
  refine (f_equal fst
            (controller_stats_counts stats_env no_requests
               {| status := 200; data := VArr [VStr "n1"; VStr "n2"] |}
               {| status := 200; data := VObj [("address", VStr "efcc1b0947")] |}
               [VStr "n1"; VStr "n2"] eq_refl eq_refl _ eq_refl)).
  repeat (constructor; [split; [eexists; reflexivity | reflexivity]|]).
  constructor.
Defined.

Lemma mail_template_fallback_sample :
  getMailTemplates stats_env sample_defaults "inviteUserTemplate" no_requests =
  (inr (inviteUserTemplate sample_defaults), no_requests).
Proof.
  exact (proj1 (proj1 (mail_template_fallback stats_env sample_defaults "inviteUserTemplate"
                         no_requests VNull eq_refl)
                  (or_introl eq_refl))
           eq_refl).
Defined.

Lemma template_body_round_trip_sample :
  get (changeTemplateHandler (VObj [("subject", VStr "Welcome"); ("body", VStr "")]) "body"
         ("Hello," ++ newline ++ "world")) "body"
  = VStr "Hello,<br />world" /\
  get (changeTemplateHandler (VObj [("subject", VStr "Welcome"); ("body", VStr "")]) "body"
         ("Hello," ++ newline ++ "world")) "subject"
  = VStr "Welcome" /\
  textarea_value
    (changeTemplateHandler (VObj [("subject", VStr "Welcome"); ("body", VStr "")]) "body"
       ("Hello," ++ newline ++ "world"))
  = inr (VStr ("Hello," ++ newline ++ "world")).
Proof.
  destruct (template_body_round_trip
              (VObj [("subject", VStr "Welcome"); ("body", VStr "")]) "body"
              ("Hello," ++ newline ++ "world"))
    as (_ & _ & Hstored & _ & Hothers & Hshown).
  split; [exact Hstored|]. split; [|exact (Hshown eq_refl)].
  apply Hothers; [|discriminate].
  unfold obj_wf. simpl. repeat constructor; simpl; intuition discriminate.
Defined.

(** ** Loading the module *)

(** X19: how the local token is found when the module is loaded.  A
    non-empty [ZT_SECRET] variable is the token, and then no file is read.
    Otherwise, when [IS_GITHUB_ACTION] is the string ["true"], the token is
    a fixed placeholder, and again no file is read; else exactly one file
    is read, [ZT_SECRET_FILE] or the default path, and its content is the
    token.  When that file cannot be read the module still loads: two lines
    go to the console, the token stays absent, and local requests are then
    sent with the absent token as [X-ZT1-Auth]. *)
Theorem local_token_sources (env : process_env) (readFileSync : string -> string + string) :
  let st := load_module env readFileSync in
  let file := to_str (logical_or (env_ZT_SECRET_FILE env)
                        (VStr "/var/lib/zerotier-one/authtoken.secret")) in
  (truthy (env_ZT_SECRET env) = true ->
   mod_ZT_SECRET st = env_ZT_SECRET env /\ mod_files_read st = [] /\ mod_console st = []) /\
  (truthy (env_ZT_SECRET env) = false -> env_IS_GITHUB_ACTION env = VStr "true" ->
   mod_ZT_SECRET st = VStr "dummy_text_to_skip_gh" /\
   mod_files_read st = [] /\ mod_console st = []) /\
  (truthy (env_ZT_SECRET env) = false -> env_IS_GITHUB_ACTION env <> VStr "true" ->
   mod_files_read st = [file] /\
   (forall content, readFileSync file = inr content ->
      mod_ZT_SECRET st = VStr content /\ mod_console st = []) /\
   (forall error, readFileSync file = inl error ->
      truthy (mod_ZT_SECRET st) = false /\
      mod_console st = [LogText "an error occurred while reading the ZT_SECRET";
                        LogError error] /\
      forall E w, loaded st E ->
        exists o, getOptions E false w = (inr o, w) /\
                  truthy (get (headers o) "X-ZT1-Auth") = false)).
Proof.
  intros st file. unfold st, load_module. fold file.
  split; [|split].
  - intros Ht. rewrite Ht. cbn. now repeat split.
  - intros Ht Hg. rewrite Ht, Hg. cbn. now repeat split.
  - intros Ht Hg. rewrite Ht. cbn [negb].
    assert (Hn : is_not_true_string (env_IS_GITHUB_ACTION env) = true).
    { destruct (env_IS_GITHUB_ACTION env) as [| |b|z|s|l|o]; try reflexivity.
      cbn. destruct (String.eqb_spec s "true") as [->|_]; [contradiction | reflexivity]. }
    rewrite Hn.
    split; [destruct (readFileSync file); reflexivity|].
    split.
    + intros content Hc. rewrite Hc. now split.
    + intros error He. rewrite He. cbn [mod_ZT_SECRET mod_console].
      split; [exact Ht|]. split; [reflexivity|].
      intros E w [_ Hsecret]. cbn [mod_ZT_SECRET] in Hsecret.
      eexists. split; [apply getOptions_local|].
      cbn [headers]. unfold get. cbn [own_props lookup String.eqb Ascii.eqb Bool.eqb].
      now rewrite Hsecret.
Qed.

Lemma local_token_sources_sample :
  mod_files_read (load_module sample_process_env no_such_file) = ["/run/secrets/zt"] /\
  truthy (mod_ZT_SECRET (load_module sample_process_env no_such_file)) = false.
Proof.
  destruct (local_token_sources sample_process_env no_such_file) as (_ & _ & Hfile).
  destruct Hfile as (Hread & _ & Hfail); [reflexivity | discriminate |].
  split; [exact Hread|].
  exact (proj1 (Hfail _ eq_refl)).
Defined.

(** X20: what [get_controller_networks] returns for a 2xx answer depends on
    the backend.  For the local controller it is the body as sent, the
    list of identifiers.  For Central, when the body is an array of
    records, it is an array of the same length whose elements are the
    flattened records, in order, each with an [nwid] field. *)
Theorem networks_listing_shapes (E : Env) (isCentral : bool) (w w0 : world)
    (o : GetOptionsResponse) (r : response) :
  getOptions E isCentral w = (inr o, w0) ->
  settle (server E (requests w0) (get_request (networks_addr E o isCentral) (headers o)))
    = inr r ->
  (isCentral = false ->
   get_controller_networks E isCentral w =
   (inr (data r), sent w0 (get_request (networks_addr E o isCentral) (headers o)))) /\
  (isCentral = true ->
   forall l, data r = VArr l -> Forall (fun v => nullish v = false) l ->
     exists l',
       get_controller_networks E isCentral w =
       (inr (VArr l'), sent w0 (get_request (networks_addr E o isCentral) (headers o))) /\
       length l' = length l /\
       forall i v, nth_error l i = Some v ->
         exists flat,
           flattenNetwork v = inr (VObj flat) /\ nth_error l' i = Some (VObj flat) /\
           In "nwid" (keys flat)).
Proof.
  intros Ho Hs. split.
  - intros ->. unfold get_controller_networks. unfold bind at 1. rewrite Ho.
    unfold try_catch. rewrite getData_run.
    cbn [networks_addr] in Hs. rewrite Hs. reflexivity.
  - intros -> l Hd Hall.
    destruct (map_result_total flattenNetwork l) as [ln Hn].
    { eapply Forall_impl; [|exact Hall]. intros v Hv. unfold flattenNetwork.
      rewrite Hv. now eexists. }
    exists ln. split; [|split; [now apply map_result_length in Hn|]].
    + unfold get_controller_networks. unfold bind at 1. rewrite Ho.
      unfold try_catch, bind. rewrite getData_run.
      cbn [networks_addr] in Hs. rewrite Hs. unfold lift. rewrite Hd.
      unfold flattenNetworks, array_map. rewrite Hn. reflexivity.
    + intros i v Hi. destruct (map_result_nth _ _ _ _ _ Hn Hi) as (fn & Hf & Hl).
      assert (Hv : nullish v = false).
      { rewrite Forall_forall in Hall. apply Hall. eapply nth_error_In. exact Hi. }
      unfold flattenNetwork in Hf. rewrite Hv in Hf. injection Hf as <-.
      eexists. split; [unfold flattenNetwork; rewrite Hv; reflexivity|].
      split; [exact Hl|].
      unfold spread. rewrite !assign_keys, obj_set_keys. now left; left; left.
Qed.

Lemma networks_listing_shapes_sample :
  get_controller_networks stats_env false no_requests =
  (inr (VArr [VStr "n1"; VStr "n2"]), sent no_requests (stats_list_request stats_env)).
Proof.
  exact (proj1 (networks_listing_shapes stats_env false no_requests no_requests _
                  {| status := 200; data := VArr [VStr "n1"; VStr "n2"] |}
                  (getOptions_local _ no_requests) eq_refl)
           eq_refl).
Defined.

(** ** Failing loudly *)

Section FailLoud.

Variable E : Env.























End FailLoud.

(** ** What the operations throw *)

Section Rethrown.

Variable E : Env.





End Rethrown.



